(** * OCR MCP server: the recognition engine and its two request handlers

    A shallow embedding of
      - [apps/mcp-servers/ocr/src/ocr_engine.py]  ([OCRBlock], [OCRResult],
        [OCRResult.to_dict], [OCREngine.process]) and
      - [apps/mcp-servers/ocr/src/server.py]      ([ocr_from_base64],
        [ocr_from_path]),
    together with the parts of the Python runtime these functions rely on.

    Conventions.
      - A Python computation that may raise is a value of [res A]: either
        [Ret a] or [Raise e].  [try: ... except Exception as e: ...] is
        [try_except].  Only instances of [Exception] are modelled
        ([KeyboardInterrupt] and [SystemExit] are not exceptions of the
        program).
      - [float] is the binary64 type of the kernel, which is Python's [float].
      - [str] is [string]; a character is a code point below 256.
      - A call to [logger] returns nothing; what is kept of it is the
        evaluation of its f-string where that can raise ([format_2f]). *)

From Stdlib Require Import ZArith Floats String Ascii List Lia Bool DecimalString.
From stdpp Require Import base option list strings gmap.

Local Open Scope string_scope.
Local Open Scope Z_scope.

Set Warnings "-register-all".

(** ** Exceptions and results *)

(** An exception instance: the name of its class and [str(e)]. *)
Record exn := Exn { exn_class : string; exn_msg : string }.

Inductive res (A : Type) : Type :=
| Ret (a : A)
| Raise (e : exn).
Arguments Ret {A} a.
Arguments Raise {A} e.

Definition bind {A B : Type} (m : res A) (k : A -> res B) : res B :=
  match m with
  | Ret a => k a
  | Raise e => Raise e
  end.

Notation "x <- m ;; k" := (bind m (fun x => k))
  (at level 20, m at level 99, k at level 200, only parsing).
Notation "' p <- m ;; k" := (bind m (fun x => match x with p => k end))
  (at level 20, p pattern, m at level 99, k at level 200, only parsing).

(** [try: body  except Exception as e: handler e] *)
Definition try_except {A : Type} (body : res A) (handler : exn -> res A) : res A :=
  match body with
  | Ret a => Ret a
  | Raise e => handler e
  end.

(** [str(e)] *)
Definition str_exn (e : exn) : string := exn_msg e.

Definition TypeError (msg : string) : exn := Exn "TypeError" msg.
Definition IndexError (msg : string) : exn := Exn "IndexError" msg.
Definition KeyError (msg : string) : exn := Exn "KeyError" msg.
Definition OverflowError (msg : string) : exn := Exn "OverflowError" msg.

(** ** Python values *)

(** The values that cross the engine's boundary: what the detector hands
    back ([None], numbers, strings, lists and tuples, both as [PyList]) and
    what [to_dict] builds (dicts with string keys). *)
Inductive pyval :=
| PyNone
| PyInt (n : Z)
| PyFloat (x : float)
| PyStr (s : string)
| PyList (l : list pyval)
| PyDict (d : gmap string pyval).

Definition type_name (v : pyval) : string :=
  match v with
  | PyNone => "NoneType"
  | PyInt _ => "int"
  | PyFloat _ => "float"
  | PyStr _ => "str"
  | PyList _ => "list"
  | PyDict _ => "dict"
  end.

(** [bool(v)] *)
Definition truthy (v : pyval) : bool :=
  match v with
  | PyNone => false
  | PyInt n => negb (n =? 0)
  | PyFloat x => negb (PrimFloat.eqb x 0)
  | PyStr s => negb (String.eqb s "")
  | PyList l => match l with [] => false | _ => true end
  | PyDict d => negb (bool_decide (d = ∅))
  end.

Definition char_str (c : ascii) : pyval := PyStr (String c "").

Definition decimal (n : nat) : string := NilEmpty.string_of_uint (Nat.to_uint n).

(** [v[i]] for a constant index [i >= 0]. *)
Definition py_getitem (v : pyval) (i : nat) : res pyval :=
  match v with
  | PyList l =>
      match l !! i with
      | Some x => Ret x
      | None => Raise (IndexError "list index out of range")
      end
  | PyStr s =>
      match String.get i s with
      | Some c => Ret (char_str c)
      | None => Raise (IndexError "string index out of range")
      end
  | PyDict d => Raise (KeyError (decimal i))
  | _ => Raise (TypeError ("'" ++ type_name v ++ "' object is not subscriptable"))
  end.

(** The items of [for x in v].  A dict yields its keys (here in the order of
    the finite map). *)
Definition py_iter (v : pyval) : res (list pyval) :=
  match v with
  | PyList l => Ret l
  | PyStr s => Ret (map char_str (list_ascii_of_string s))
  | PyDict d => Ret (map (fun kv => PyStr (fst kv)) (map_to_list d))
  | _ => Raise (TypeError ("'" ++ type_name v ++ "' object is not iterable"))
  end.

(** ** Floating point *)

(** The binary64 number nearest to the integer [z] (ties to even), infinite
    when [z] is out of range. *)
Definition float_of_Z (z : Z) : float := SF2Prim (binary_normalize prec emax z 0 false).

(** [float(n)] for an [int]. *)
Definition float_of_int (n : Z) : res float :=
  let x := float_of_Z n in
  if PrimFloat.is_infinity x
  then Raise (OverflowError "int too large to convert to float")
  else Ret x.

(** The integer nearest to [n / d] for [d > 0], ties to the even one. *)
Definition round_half_even (n d : Z) : Z :=
  let q := n / d in
  match (2 * (n mod d) ?= d) with
  | Lt => q
  | Gt => q + 1
  | Eq => if Z.even q then q else q + 1
  end.

(** [round(x, 3)] on a float: the exact value of [x] is rounded to the
    nearest multiple of 1/1000 (ties to even) and the nearest float to that
    decimal is returned.  A finite [x] is [m * 2^e]; when [e >= -9] the
    floats around [x] are more than 1/1000 apart and the result is [x]
    itself, otherwise the rounded numerator is below 2^53 and is a float. *)
Definition py_round3 (x : float) : float :=
  match Prim2SF x with
  | S754_finite s m e =>
      if -10 <? e then x
      else
        let k := round_half_even (1000 * Z.pos m) (2 ^ (- e)) in
        let r := (float_of_Z k / 1000)%float in
        if s then (- r)%float else r
  | _ => x
  end.

(** ** Strings *)

(** [s.startswith(p)] *)
Definition startswith (p s : string) : bool := String.prefix p s.

(** [c in s] for a one-character [c]. *)
Fixpoint contains_char (c : ascii) (s : string) : bool :=
  match s with
  | EmptyString => false
  | String a s' => Ascii.eqb a c || contains_char c s'
  end.

(** [s.split(c, 1)] for a one-character separator: at most one split, at
    the first occurrence. *)
Fixpoint split_once (c : ascii) (s : string) : list string :=
  match s with
  | EmptyString => [EmptyString]
  | String a s' =>
      if Ascii.eqb a c then [EmptyString; s']
      else
        match split_once c s' with
        | hd :: tl => String a hd :: tl
        | [] => [String a EmptyString]
        end
  end.

Definition LF : ascii := ascii_of_nat 10.
Definition CR : ascii := ascii_of_nat 13.
Definition newline : string := String LF EmptyString.

(** The characters at which [str.splitlines] breaks a line, among the code
    points below 256: \n \r \v \f \x1c \x1d \x1e \x85. *)
Definition is_line_boundary (c : ascii) : bool :=
  bool_decide (nat_of_ascii c ∈ [10; 13; 11; 12; 28; 29; 30; 133]%nat).

(** [splitlines_from s line after_cr]: the lines of [line ++ s], where [line]
    is the text read since the last boundary and [after_cr] tells that this
    boundary was a \r (a \n that follows it belongs to the same boundary). *)
Fixpoint splitlines_from (s line : string) (after_cr : bool) : list string :=
  match s with
  | EmptyString => if String.eqb line "" then [] else [line]
  | String c s' =>
      if after_cr && Ascii.eqb c LF then splitlines_from s' "" false
      else if is_line_boundary c then line :: splitlines_from s' "" (Ascii.eqb c CR)
      else splitlines_from s' (line ++ String c "") false
  end.

(** [s.splitlines()] *)
Definition splitlines (s : string) : list string := splitlines_from s "" false.

(** How many line boundaries a string holds. *)
Fixpoint line_boundaries (s : string) : nat :=
  match s with
  | EmptyString => 0
  | String c s' => (if is_line_boundary c then 1 else 0) + line_boundaries s'
  end.

(** The [str] items of the argument of [sep.join(...)]; [i] is the index of
    the first one. *)
Fixpoint str_items (i : nat) (l : list pyval) : res (list string) :=
  match l with
  | [] => Ret []
  | PyStr s :: l' => ss <- str_items (S i) l' ;; Ret (s :: ss)
  | v :: _ =>
      Raise (TypeError ("sequence item " ++ decimal i ++ ": expected str instance, "
                          ++ type_name v ++ " found"))
  end.

(** [sep.join(l)] *)
Definition py_join (sep : string) (l : list pyval) : res string :=
  ss <- str_items 0 l ;; Ret (String.concat sep ss).

(** ** The collaborators

    What the two modules import and call but do not define: the RapidOCR
    session, [base64], PIL's [Image] and [os.path], and the parser behind
    [float(str)]. *)
Class Externals := {
  (** a PIL image *)
  image : Type;
  (** [self._ocr(image)]: the pair [(raw_result, elapsed_list)], or an exception *)
  _ocr : image -> res (pyval * pyval);
  (** [float(s)] for a [str] *)
  float_of_str : string -> res float;
  (** [base64.b64decode(s)] *)
  b64decode : string -> res (list Byte.byte);
  (** [Image.open(io.BytesIO(img_bytes))] *)
  Image_open_bytes : list Byte.byte -> res image;
  (** [Image.open(file_path)] *)
  Image_open_path : string -> res image;
  (** [img.mode] *)
  mode : image -> string;
  (** [img.convert(m)] *)
  convert : image -> string -> res image;
  (** [os.path.exists(p)] *)
  exists_ : string -> bool;
  (** [os.path.isfile(p)] *)
  isfile : string -> bool;
}.

(** [os.path.isabs(p)] of [posixpath]: the server runs in a Linux container. *)
Definition isabs (p : string) : bool := startswith "/" p.

(** ** ocr_engine.py *)

(** [class OCRBlock]: [text] is whatever the detector gave as [item[1]],
    [box] a list of [[x, y]] lists. *)
Record OCRBlock := mkOCRBlock {
  block_text : pyval;
  confidence : float;
  box : list (list float);
}.

(** [class OCRResult]; [elapsed_seconds] is the int [0] or the sum of the
    stage times. *)
Record OCRResult := mkOCRResult {
  text : string;
  blocks : list OCRBlock;
  elapsed_seconds : pyval;
  error : option string;
}.

Definition block_to_dict (b : OCRBlock) : pyval :=
  PyDict {[ "text" := block_text b;
            "confidence" := PyFloat (confidence b);
            "box" := PyList (map (fun p => PyList (map PyFloat p)) (box b)) ]}.

(** [OCRResult.to_dict]; [if self.error:] holds for a non-empty string. *)
Definition to_dict (self : OCRResult) : gmap string pyval :=
  let result : gmap string pyval :=
    {[ "text" := PyStr (text self);
       "blocks" := PyList (map block_to_dict (blocks self)) ]} in
  match error self with
  | Some e => if negb (String.eqb e "") then <["error" := PyStr e]> result else result
  | None => result
  end.

Section Engine.
Context `{Externals}.

(** [float(v)] *)
Definition py_float (v : pyval) : res float :=
  match v with
  | PyFloat x => Ret x
  | PyInt n => float_of_int n
  | PyStr s => float_of_str s
  | _ => Raise (TypeError ("float() argument must be a string or a real number, not '"
                             ++ type_name v ++ "'"))
  end.

(** [a + b] *)
Definition py_add (a b : pyval) : res pyval :=
  match a, b with
  | PyInt m, PyInt n => Ret (PyInt (m + n))
  | PyInt m, PyFloat y => x <- float_of_int m ;; Ret (PyFloat (x + y))
  | PyFloat x, PyInt n => y <- float_of_int n ;; Ret (PyFloat (x + y))
  | PyFloat x, PyFloat y => Ret (PyFloat (x + y))
  | _, _ => Raise (TypeError ("unsupported operand type(s) for +: '" ++ type_name a
                                ++ "' and '" ++ type_name b ++ "'"))
  end.

(** [sum(v)]: the items are added to the int [0] from left to right. *)
Definition py_sum (v : pyval) : res pyval :=
  items <- py_iter v ;;
  fold_left (fun acc x => a <- acc ;; py_add a x) items (Ret (PyInt 0)).

(** [[float(p[0]), float(p[1])]] *)
Definition point (p : pyval) : res (list float) :=
  p0 <- py_getitem p 0 ;;
  x <- py_float p0 ;;
  p1 <- py_getitem p 1 ;;
  y <- py_float p1 ;;
  Ret [x; y].

(** A list comprehension [[f(p) for p in l]]. *)
Fixpoint comprehension {A : Type} (f : pyval -> res A) (l : list pyval) : res (list A) :=
  match l with
  | [] => Ret []
  | p :: l' => a <- f p ;; r <- comprehension f l' ;; Ret (a :: r)
  end.

(** The body of the loop of [process] up to the construction of the block;
    the result is the block and [text]. *)
Definition make_block (item : pyval) : res (OCRBlock * pyval) :=
  box <- py_getitem item 0 ;;
  text <- py_getitem item 1 ;;
  confidence <- py_getitem item 2 ;;
  c <- py_float confidence ;;
  points <- py_iter box ;;
  b <- comprehension point points ;;
  Ret (mkOCRBlock text (py_round3 c) b, text).

(** [for item in raw_result: ...], with the two lists it appends to. *)
Fixpoint process_loop (items : list pyval) (blocks : list OCRBlock) (lines : list pyval)
  : res (list OCRBlock * list pyval) :=
  match items with
  | [] => Ret (blocks, lines)
  | item :: rest =>
      ' (block, text) <- make_block item ;;
      process_loop rest (blocks ++ [block]) (lines ++ [text])
  end.

(** [sum(elapsed_list) if elapsed_list else 0] *)
Definition total_elapsed (elapsed_list : pyval) : res pyval :=
  if truthy elapsed_list then py_sum elapsed_list else Ret (PyInt 0).

(** [f"{v:.2f}"], as far as it raises: a float is formatted, an int is
    converted to a float first, nothing else has the format code [f]. *)
Definition format_2f (v : pyval) : res unit :=
  match v with
  | PyFloat _ => Ret tt
  | PyInt n => _ <- float_of_int n ;; Ret tt
  | PyStr _ => Raise (Exn "ValueError" "Unknown format code 'f' for object of type 'str'")
  | _ => Raise (TypeError ("unsupported format string passed to "
                             ++ type_name v ++ ".__format__"))
  end.

(** The [try] block of [OCREngine.process]; [format_2f] stands for the two
    calls of [logger.info], whose messages format [total_elapsed]. *)
Definition process_try (image : image) : res OCRResult :=
  ' (raw_result, elapsed_list) <- _ocr image ;;
  total_elapsed <- total_elapsed elapsed_list ;;
  if negb (truthy raw_result) then
    _ <- format_2f total_elapsed ;;
    Ret (mkOCRResult "" [] total_elapsed None)
  else
    items <- py_iter raw_result ;;
    ' (blocks, lines) <- process_loop items [] [] ;;
    _ <- format_2f total_elapsed ;;
    text <- py_join newline lines ;;
    Ret (mkOCRResult text blocks total_elapsed None).

(** [OCREngine.process] *)
Definition process (image : image) : res OCRResult :=
  try_except (process_try image)
    (fun e => Ret (mkOCRResult "" [] (PyInt 0) (Some (str_exn e)))).

(** What a block of the result owes to the detection it is made from:
    [item[1]] is its text, [round(float(item[2]), 3)] its confidence and the
    points of [item[0]], in order, its corners. *)
Inductive made_from (item : pyval) (b : OCRBlock) : Prop :=
| MadeFrom (raw_box raw_confidence : pyval) (score : float) (points : list pyval)
    (Hbox : py_getitem item 0 = Ret raw_box)
    (Htext : py_getitem item 1 = Ret (block_text b))
    (Hconfidence : py_getitem item 2 = Ret raw_confidence)
    (Hscore : py_float raw_confidence = Ret score)
    (Hround : confidence b = py_round3 score)
    (Hpoints : py_iter raw_box = Ret points)
    (Hcorners : Forall2 (fun p xy => point p = Ret xy) points (box b)).

(** The three ways [process] comes to its result [r]: the [except] clause,
    the early return on an empty detection list, and the return after the
    loop. *)
Inductive outcome (img : image) (r : OCRResult) : Prop :=
| Failed (e : exn)
    (Htry : process_try img = Raise e)
    (Hr : r = mkOCRResult "" [] (PyInt 0) (Some (str_exn e)))
| NoText (raw_result elapsed_list total : pyval)
    (Hocr : _ocr img = Ret (raw_result, elapsed_list))
    (Htotal : total_elapsed elapsed_list = Ret total)
    (Hraw : truthy raw_result = false)
    (Hr : r = mkOCRResult "" [] total None)
| Found (raw_result elapsed_list total : pyval) (items : list pyval) (lines : list string)
    (Hocr : _ocr img = Ret (raw_result, elapsed_list))
    (Htotal : total_elapsed elapsed_list = Ret total)
    (Hraw : truthy raw_result = true)
    (Hitems : py_iter raw_result = Ret items)
    (Hblocks : Forall2 made_from items (blocks r))
    (Hlines : map block_text (blocks r) = map PyStr lines)
    (Htext : text r = String.concat newline lines)
    (Helapsed : elapsed_seconds r = total)
    (Herror : error r = None).

End Engine.

(** ** server.py *)

Section Server.
Context `{Externals}.

(** The dict literal [{"text": "", "blocks": [], "error": msg}]. *)
Definition error_response (msg : string) : gmap string pyval :=
  {[ "text" := PyStr ""; "blocks" := PyList []; "error" := PyStr msg ]}.

(** The modes of [img.mode in ("RGBA", "P", "LA", "L")]. *)
Definition converted_modes : list string := ["RGBA"; "P"; "LA"; "L"].

(** The first statement of [ocr_from_base64], on the data URI prefix: it
    either returns a response ([inl]) or goes on with the payload ([inr]),
    the new value of [image_base64]. *)
Definition data_uri_prefix (image_base64 : string) : res (gmap string pyval + string) :=
  if startswith "data:" image_base64 then
    if contains_char "," image_base64 then
      match split_once "," image_base64 !! 1%nat with
      | Some payload => Ret (inr payload)
      | None => Raise (IndexError "list index out of range")
      end
    else Ret (inl (error_response "Invalid data URI format"))
  else Ret (inr image_base64).

(** [ocr_from_base64] *)
Definition ocr_from_base64 (image_base64 : string) : res (gmap string pyval) :=
  try_except
    (match data_uri_prefix image_base64 with
     | Raise e => Raise e
     | Ret (inl response) => Ret response
     | Ret (inr image_base64) =>
         match b64decode image_base64 with
         | Raise e => Ret (error_response ("Invalid base64: " ++ str_exn e))
         | Ret img_bytes =>
             match Image_open_bytes img_bytes with
             | Raise e => Ret (error_response ("Invalid image format: " ++ str_exn e))
             | Ret img =>
                 img <- (if bool_decide (mode img ∈ converted_modes)
                         then convert img "RGB" else Ret img) ;;
                 result <- process img ;;
                 Ret (to_dict result)
             end
         end
     end)
    (fun e => Ret (error_response (str_exn e))).

(** [ocr_from_path] *)
Definition ocr_from_path (file_path : string) : res (gmap string pyval) :=
  try_except
    (if String.eqb file_path "" then
       Ret (error_response "File path is required")
     else if negb (isabs file_path) then
       Ret (error_response "File path must be absolute")
     else if negb (exists_ file_path) then
       Ret (error_response ("File not found: " ++ file_path))
     else if negb (isfile file_path) then
       Ret (error_response ("Not a file: " ++ file_path))
     else
       match Image_open_path file_path with
       | Raise e => Ret (error_response ("Failed to open image: " ++ str_exn e))
       | Ret img =>
           img <- (if bool_decide (mode img ∈ converted_modes)
                   then convert img "RGB" else Ret img) ;;
           result <- process img ;;
           Ret (to_dict result)
       end)
    (fun e => Ret (error_response (str_exn e))).

(** The image that both handlers hand to the engine: the RGB conversion for
    the four modes, the image itself otherwise. *)
Definition engine_input (img : image) : res image :=
  if bool_decide (mode img ∈ converted_modes) then convert img "RGB" else Ret img.

(** The end of both handlers, from the conversion on. *)
Definition recognize (img : image) : res (gmap string pyval) :=
  img <- engine_input img ;; result <- process img ;; Ret (to_dict result).

(** [image_base64] is, or carries after a data URI prefix, base64 text
    that decodes to bytes that open as [img]. *)
Definition decodes_to (image_base64 : string) (img : image) : Prop :=
  exists payload img_bytes,
    data_uri_prefix image_base64 = Ret (inr payload) /\
    b64decode payload = Ret img_bytes /\
    Image_open_bytes img_bytes = Ret img.

(** [file_path] passes the four checks of [ocr_from_path] and opens as
    [img]. *)
Definition opens_to (file_path : string) (img : image) : Prop :=
  file_path <> "" /\ isabs file_path = true /\ exists_ file_path = true /\
  isfile file_path = true /\ Image_open_path file_path = Ret img.

(** What a handler answers: an error response of its own or the serialized
    result of the engine. *)
Definition answer (d : gmap string pyval) : Prop :=
  (exists msg, d = error_response msg) \/
  (exists img r, process img = Ret r /\ d = to_dict r).

End Server.

(** The shape of a response, [{text, blocks, error?}]: a [str] under
    ["text"], a list under ["blocks"], a [str] under ["error"] when the key
    is there, and no other key. *)
Definition well_formed (d : gmap string pyval) : Prop :=
  (exists t, d !! "text" = Some (PyStr t)) /\
  (exists bs, d !! "blocks" = Some (PyList bs)) /\
  (forall v, d !! "error" = Some v -> exists msg, v = PyStr msg) /\
  (forall k, is_Some (d !! k) -> k ∈ ["text"; "blocks"; "error"]).

(** A response that carries the text and the blocks of the result [r], no
    error key when [r] has no error, and the error of [r] under the key when
    that is a non-empty message. *)
Definition carries (d : gmap string pyval) (r : OCRResult) : Prop :=
  d !! "text" = Some (PyStr (text r)) /\
  d !! "blocks" = Some (PyList (map block_to_dict (blocks r))) /\
  (error r = None -> d !! "error" = None) /\
  (forall e, error r = Some e -> e <> "" -> d !! "error" = Some (PyStr e)).

(** A response whose text is the newline join of the ["text"] entries of
    its blocks, in their order. *)
Definition text_joins_entries (d : gmap string pyval) : Prop :=
  exists entries lines,
    d !! "blocks" = Some (PyList entries) /\
    Forall2 (fun entry line =>
               exists m : gmap string pyval,
                 entry = PyDict m /\ m !! "text" = Some (PyStr line))
            entries lines /\
    d !! "text" = Some (PyStr (String.concat newline lines)).

(** A response with the empty text and no block. *)
Definition empty_handed (d : gmap string pyval) : Prop :=
  d !! "text" = Some (PyStr "") /\ d !! "blocks" = Some (PyList []).

(** ** A world to run the code in

    Pictures, the files that hold them and their base64 texts, as tables: a
    picture is its colour mode and what the detector answers on it in a given
    mode.  The instances below are used to evaluate the handlers. *)

Module Toy.

Record picture := Picture {
  pic_mode : string;
  pic_detect : string -> res (pyval * pyval);
}.

Inductive node :=
| Dir
| File (content : list Byte.byte).

Record tables := Tables {
  encoded : list (string * list Byte.byte);
  pictures : list (list Byte.byte * picture);
  files : list (string * node);
}.

Fixpoint assoc {A B : Type} (eqb : A -> A -> bool) (k : A) (l : list (A * B)) : option B :=
  match l with
  | [] => None
  | (k', v) :: l' => if eqb k k' then Some v else assoc eqb k l'
  end.

Definition bytes_eqb (a b : list Byte.byte) : bool :=
  bool_decide (map Byte.to_nat a = map Byte.to_nat b).

Definition open_bytes (t : tables) (b : list Byte.byte) : res picture :=
  match assoc bytes_eqb b (pictures t) with
  | Some p => Ret p
  | None => Raise (Exn "UnidentifiedImageError" "cannot identify image file")
  end.

#[local] Instance world (t : tables) : Externals := {|
  image := picture;
  _ocr := fun p => pic_detect p (pic_mode p);
  float_of_str := fun s =>
    if String.eqb s "0.5" then Ret 0.5%float
    else Raise (Exn "ValueError" ("could not convert string to float: '" ++ s ++ "'"));
  b64decode := fun s =>
    match assoc String.eqb s (encoded t) with
    | Some b => Ret b
    | None => Raise (Exn "Error" "Incorrect padding")
    end;
  Image_open_bytes := open_bytes t;
  Image_open_path := fun p =>
    match assoc String.eqb p (files t) with
    | Some (File b) => open_bytes t b
    | Some Dir => Raise (Exn "IsADirectoryError" ("[Errno 21] Is a directory: '" ++ p ++ "'"))
    | None => Raise (Exn "FileNotFoundError" ("[Errno 2] No such file or directory: '" ++ p ++ "'"))
    end;
  mode := pic_mode;
  convert := fun p m => Ret (Picture m (pic_detect p));
  exists_ := fun p => match assoc String.eqb p (files t) with Some _ => true | None => false end;
  isfile := fun p => match assoc String.eqb p (files t) with Some (File _) => true | _ => false end;
|}.

Definition pt (x y : float) : pyval := PyList [PyFloat x; PyFloat y].

Definition quad : pyval :=
  PyList [pt 20 20; pt 90 20; pt 90 34; pt 20 34].

Definition triangle : pyval :=
  PyList [pt 0 0; pt 8 0; pt 8 8].

Definition detection (box : pyval) (text : string) (confidence : float) : pyval :=
  PyList [box; PyStr text; PyFloat confidence].

Definition stage_times : pyval :=
  PyList [PyFloat 0.125; PyFloat 0.25; PyFloat 0.5].

(** Two lines of text, found in every mode. *)
Definition hello : pyval * pyval :=
  (PyList [detection quad "Hello" 0x1.f9add30c81ee8p-1; detection quad "World" 0.5],
   stage_times).

Definition pic_hello : picture := Picture "RGB" (fun _ => Ret hello).

Definition pic_hello_rgba : picture := Picture "RGBA" (fun _ => Ret hello).

(** A palette image: the detector fails on its raw form and reads the text
    once it is converted. *)
Definition pic_palette : picture :=
  Picture "P" (fun m =>
    if String.eqb m "P" then Raise (Exn "ValueError" "unsupported image mode")
    else Ret hello).

(** A white page. *)
Definition pic_blank : picture := Picture "RGB" (fun _ => Ret (PyNone, stage_times)).

(** The session fails with an exception that has no message. *)
Definition pic_crash : picture := Picture "RGB" (fun _ => Raise (Exn "AssertionError" "")).

(** The session fails with a message. *)
Definition pic_fail : picture :=
  Picture "RGB" (fun _ => Raise (Exn "RuntimeError" "inference failed")).

(** A detection without its confidence. *)
Definition pic_short : picture :=
  Picture "RGB" (fun _ => Ret (PyList [PyList [quad; PyStr "Hi"]], stage_times)).

(** A detection with three corners and a score above one. *)
Definition pic_odd : picture :=
  Picture "RGB" (fun _ => Ret (PyList [detection triangle "x" 1.5], stage_times)).

(** One detection whose text holds a line feed. *)
Definition pic_two_lines : picture :=
  Picture "RGB" (fun _ => Ret (PyList [detection quad ("a" ++ newline ++ "b") 0.5], stage_times)).

Definition bytes_of (s : string) : list Byte.byte := list_byte_of_string s.

Definition t0 : tables := {|
  encoded := [("aGVsbG8=", bytes_of "hello"); ("cGFsZXR0ZQ==", bytes_of "palette");
              ("cmdiYQ==", bytes_of "rgba"); ("Y3Jhc2g=", bytes_of "crash");
              ("Ymxhbms=", bytes_of "blank"); ("dGV4dA==", bytes_of "text")];
  pictures := [(bytes_of "hello", pic_hello); (bytes_of "palette", pic_palette);
               (bytes_of "rgba", pic_hello_rgba); (bytes_of "crash", pic_crash);
               (bytes_of "blank", pic_blank)];
  files := [("/some/directory", Dir);
            ("/data/hello.png", File (bytes_of "hello"));
            ("/data/rgba.png", File (bytes_of "rgba"));
            ("/data/notes.txt", File (bytes_of "text"))];
|}.

(** The world of these tables. *)
Definition W : Externals := world t0.

End Toy.

(** ** test_ocr.py *)

(** The stripping of the prefix in [test_data_uri_format] ("like the server
    does"): [data_uri.split(",", 1)[1]] when the text starts with ["data:"]
    and holds a comma, the text itself otherwise. *)
Definition test_strip_prefix (data_uri : string) : res string :=
  if startswith "data:" data_uri && contains_char "," data_uri then
    match split_once "," data_uri !! 1%nat with
    | Some b64_clean => Ret b64_clean
    | None => Raise (IndexError "list index out of range")
    end
  else Ret data_uri.

(** ** image-processor/main.py *)

Module ImageProcessor.

(** What the module imports and calls: PIL and rembg (with the session that
    is loaded once with the module). *)
Class Externals := {
  (** a PIL image *)
  image : Type;
  (** [Image.open(io.BytesIO(contents))] *)
  Image_open : list Byte.byte -> res image;
  (** [remove(input_image, session=session)] *)
  remove : image -> res image;
  (** [output_image.save(output_buffer, format="PNG")], then
      [output_buffer.getvalue()] *)
  save_png : image -> res (list Byte.byte);
}.

(** An [UploadFile]: its declared content type and what [await file.read()]
    gives. *)
Record UploadFile := mkUploadFile {
  content_type : option string;
  read : res (list Byte.byte);
}.

(** A [Response]; [status_code] is the default of the class, 200. *)
Record Response := mkResponse {
  content : list Byte.byte;
  media_type : string;
  headers : gmap string string;
  status_code : Z;
}.

(** What an endpoint does: it returns, or raises an [HTTPException]. *)
Inductive answer (A : Type) : Type :=
| Returns (a : A)
| HTTPException (status_code : Z) (detail : string).
Arguments Returns {A} a.
Arguments HTTPException {A} status_code detail.

(** [health] *)
Definition health : gmap string string := {[ "status" := "ok" ]}.

(** [not file.content_type or not file.content_type.startswith("image/")] *)
Definition not_an_image (file : UploadFile) : bool :=
  match content_type file with
  | None => true
  | Some ct => String.eqb ct "" || negb (startswith "image/" ct)
  end.

Section Endpoint.
Context `{Externals}.

(** The [try] block of [remove_background]. *)
Definition remove_background_try (file : UploadFile) : res Response :=
  contents <- read file ;;
  input_image <- Image_open contents ;;
  output_image <- remove input_image ;;
  output <- save_png output_image ;;
  Ret (mkResponse output "image/png"
         {[ "Content-Disposition" := "attachment; filename=output.png" ]} 200).

(** [remove_background] *)
Definition remove_background (file : UploadFile) : answer Response :=
  if not_an_image file then HTTPException 400 "File must be an image"
  else
    match remove_background_try file with
    | Ret response => Returns response
    | Raise e => HTTPException 500 (str_exn e)
    end.

End Endpoint.

(** A world to run the endpoint in: an image is its bytes, the bytes
    ["PNG"] open, [remove] appends ["-cut"] and fails on ["PNG!"]. *)
#[local] Instance toy : Externals := {|
  image := string;
  Image_open := fun b =>
    if String.prefix "PNG" (string_of_list_byte b) then Ret (string_of_list_byte b)
    else Raise (Exn "UnidentifiedImageError" "cannot identify image file");
  remove := fun i =>
    if String.eqb i "PNG!" then Raise (Exn "RuntimeError" "session failed")
    else Ret (i ++ "-cut");
  save_png := fun i => Ret (list_byte_of_string i);
|}.

Definition T : Externals := toy.

End ImageProcessor.

(** ** More pictures *)

Module Cases.

(** A good detection, then one without its confidence, then one whose
    corners are not pairs. *)
Definition pic_mixed : Toy.picture :=
  Toy.Picture "RGB" (fun _ =>
    Ret (PyList [Toy.detection Toy.quad "Hello" 0.5;
                 PyList [Toy.quad; PyStr "Hi"];
                 Toy.detection (PyList [PyInt 1]) "x" 0.5],
         Toy.stage_times)).

(** The first line of [Toy.hello], the second, and both. *)
Definition pic_first : Toy.picture :=
  Toy.Picture "RGB" (fun _ =>
    Ret (PyList [Toy.detection Toy.quad "Hello" 0x1.f9add30c81ee8p-1], Toy.stage_times)).

Definition pic_second : Toy.picture :=
  Toy.Picture "RGB" (fun _ =>
    Ret (PyList [Toy.detection Toy.quad "World" 0.5], PyNone)).

End Cases.

(** * Properties *)

(** ** The runtime, on values computed by CPython 3.11 *)

(** [round(0.9876543, 3) == 0.988] *)
Example py_round3_down_up :
  py_round3 0x1.f9add30c81ee8p-1 = 0x1.f9db22d0e5604p-1%float.
Proof. reflexivity. Qed.

(** [round(0.0625, 3) == 0.062]: a tie goes to the even digit. *)
Example py_round3_tie : py_round3 0.0625 = 0x1.fbe76c8b43958p-5%float.
Proof. reflexivity. Qed.

(** [round(1.0005, 3) == 1.0]: the float written 1.0005 is below the tie. *)
Example py_round3_below_tie : py_round3 0x1.0020c49ba5e35p+0 = 1%float.
Proof. reflexivity. Qed.

(** [round(8796093022208.5, 3) == 8796093022208.5] *)
Example py_round3_large : py_round3 0x1.0000000000100p+43 = 0x1.0000000000100p+43%float.
Proof. reflexivity. Qed.

(** ["a\r\nb\n".splitlines() == ["a", "b"]] and ["\n\n".splitlines() == ["", ""]] *)
Example splitlines_crlf :
  splitlines (String "a" (String CR (String LF (String "b" newline)))) = ["a"; "b"] /\
  splitlines (newline ++ newline) = [""; ""].
Proof. split; reflexivity. Qed.

(** ["data:image/png;base64,AA,BB".split(",", 1)] *)
Example split_once_data_uri :
  split_once "," "data:image/png;base64,AA,BB" = ["data:image/png;base64"; "AA,BB"].
Proof. reflexivity. Qed.

(** ** The result monad *)

Lemma bind_Ret_inv {A B : Type} (m : res A) (k : A -> res B) (b : B) :
  bind m k = Ret b -> exists a, m = Ret a /\ k a = Ret b.
Proof. destruct m as [a|e]; simpl; [eauto | discriminate]. Qed.

(** Splits a hypothesis [x <- m ;; k = Ret b] into its two steps. *)
Ltac bind_inv H :=
  let a := fresh "a" in
  let Hm := fresh "Hm" in
  apply bind_Ret_inv in H; destruct H as (a & Hm & H).

(** ** Lists of strings *)

Lemma str_items_map (l : list pyval) : forall i ss,
  str_items i l = Ret ss -> l = map PyStr ss.
Proof.
  induction l as [|v l IH]; intros i ss Hs; simpl in Hs.
  - injection Hs as <-. reflexivity.
  - destruct v; try discriminate.
    bind_inv Hs. injection Hs as <-. simpl. f_equal. eauto.
Qed.

Lemma py_join_inv (sep : string) (l : list pyval) (s : string) :
  py_join sep l = Ret s ->
  exists ss, l = map PyStr ss /\ s = String.concat sep ss.
Proof.
  unfold py_join. intros Hj. bind_inv Hj. injection Hj as <-.
  exists a. split; [eapply str_items_map; eauto | reflexivity].
Qed.

Section EngineFacts.
Context `{Externals}.

(** ** The loop of [process] *)

Lemma comprehension_Forall2 {A : Type} (f : pyval -> res A) (l : list pyval) :
  forall r, comprehension f l = Ret r -> Forall2 (fun p a => f p = Ret a) l r.
Proof.
  induction l as [|p l IH]; intros r Hc; simpl in Hc.
  - injection Hc as <-. constructor.
  - bind_inv Hc. bind_inv Hc. injection Hc as <-. constructor; auto.
Qed.

Lemma point_length (p : pyval) (xy : list float) :
  point p = Ret xy -> length xy = 2%nat.
Proof.
  unfold point. intros Hp. do 4 bind_inv Hp. injection Hp as <-. reflexivity.
Qed.

Lemma make_block_inv (item : pyval) (b : OCRBlock) (t : pyval) :
  make_block item = Ret (b, t) -> t = block_text b /\ made_from item b.
Proof.
  unfold make_block. intros Hm. do 6 bind_inv Hm. injection Hm as <- <-.
  split; [reflexivity|].
  econstructor; simpl; eauto using comprehension_Forall2.
Qed.

Lemma process_loop_inv (items : list pyval) : forall bs ls bs' ls',
  process_loop items bs ls = Ret (bs', ls') ->
  exists new,
    bs' = (bs ++ new)%list /\ ls' = (ls ++ map block_text new)%list /\
    Forall2 made_from items new.
Proof.
  induction items as [|item items IH]; intros bs ls bs' ls' Hl; simpl in Hl.
  - injection Hl as <- <-. exists []. rewrite !app_nil_r. auto.
  - bind_inv Hl. destruct a as [b t].
    apply make_block_inv in Hm as [-> Hb].
    apply IH in Hl as (new & -> & -> & Hnew).
    exists (b :: new). rewrite <- !app_assoc. simpl. auto.
Qed.

(** ** The three outcomes of [process] *)

Lemma process_try_outcome (img : image) (r : OCRResult) :
  process_try img = Ret r -> outcome img r.
Proof.
  unfold process_try. intros Ht. bind_inv Ht. destruct a as [raw el].
  bind_inv Ht.
  destruct (truthy raw) eqn:Hraw; simpl in Ht.
  - bind_inv Ht. bind_inv Ht. destruct a1 as [bs ls]. bind_inv Ht. bind_inv Ht.
    injection Ht as <-.
    apply process_loop_inv in Hm2 as (new & -> & -> & Hnew). simpl in *.
    apply py_join_inv in Hm4 as (ss & Hss & ->).
    eapply Found; eauto.
  - bind_inv Ht. injection Ht as <-. eapply NoText; eauto.
Qed.

Lemma process_outcome (img : image) (r : OCRResult) :
  process img = Ret r -> outcome img r.
Proof.
  unfold process. destruct (process_try img) as [r'|e] eqn:Ht; simpl.
  - intros [= ->]. auto using process_try_outcome.
  - intros [= <-]. eapply Failed; eauto.
Qed.

Lemma process_total (img : image) : exists r, process img = Ret r.
Proof.
  unfold process. destruct (process_try img); simpl; eauto.
Qed.

End EngineFacts.

(** ** Sums of stage times *)

Section SumFacts.
Context `{Externals}.

Lemma sum_floats_from (ts : list float) : forall acc,
  fold_left (fun acc x => a <- acc ;; py_add a x) (map PyFloat ts) (Ret (PyFloat acc))
  = Ret (PyFloat (fold_left PrimFloat.add ts acc)).
Proof.
  induction ts as [|t ts IH]; intros acc; simpl; [reflexivity|]. apply IH.
Qed.

(** On a non-empty list of floats [sum] is the chain of float additions
    [((0.0 + t1) + t2) + ...]. *)
Lemma py_sum_floats (t : float) (ts : list float) :
  py_sum (PyList (map PyFloat (t :: ts)))
  = Ret (PyFloat (fold_left PrimFloat.add (t :: ts) 0%float)).
Proof.
  unfold py_sum. simpl. change (float_of_Z 0) with 0%float. apply sum_floats_from.
Qed.

End SumFacts.

(** ** Rounding keeps the unit interval *)

Lemma digits2_pos_bound (m : positive) : Z.pos m < 2 ^ Z.pos (digits2_pos m).
Proof.
  induction m as [m IH|m IH|]; simpl digits2_pos.
  - rewrite Pos2Z.inj_succ, Z.pow_succ_r by lia. lia.
  - rewrite Pos2Z.inj_succ, Z.pow_succ_r by lia. lia.
  - reflexivity.
Qed.

Lemma round_half_even_bounds (n d c : Z) :
  0 < d -> 0 <= n <= c * d -> 0 <= round_half_even n d <= c.
Proof.
  intros Hd Hn. unfold round_half_even.
  pose proof (Z.div_mod n d ltac:(lia)) as Hdm.
  pose proof (Z.mod_pos_bound n d Hd) as Hmod.
  assert (Hq : 0 <= n / d <= c).
  { split; [apply Z.div_pos; lia|]. apply Z.div_le_upper_bound; lia. }
  destruct (Z.eq_dec (n / d) c) as [Hc|Hc].
  - assert (Hr : n mod d = 0) by nia.
    rewrite Hr. replace (2 * 0 ?= d) with Lt by (symmetry; apply Z.compare_lt_iff; lia).
    lia.
  - destruct (2 * (n mod d) ?= d); [destruct (Z.even (n / d))| |]; lia.
Qed.

(** The floats [k / 1000] for [k = 0 .. 1000], one by one. *)
Lemma thousandths_in_unit_interval :
  forallb (fun n => let r := (float_of_Z (Z.of_nat n) / 1000)%float in
                    (0 <=? r)%float && (r <=? 1)%float) (seq 0 1001) = true.
Proof. vm_compute. reflexivity. Qed.

Lemma thousandth_in_unit_interval (k : Z) :
  0 <= k <= 1000 ->
  (0 <=? float_of_Z k / 1000)%float = true /\ (float_of_Z k / 1000 <=? 1)%float = true.
Proof.
  intros Hk. pose proof thousandths_in_unit_interval as Ht.
  rewrite forallb_forall in Ht. specialize (Ht (Z.to_nat k)).
  rewrite Z2Nat.id in Ht by lia. apply andb_prop. apply Ht. apply in_seq. lia.
Qed.

(** A finite float that is at most [1.0] is [m * 2^e] with [m <= 2^(-e)]. *)
Lemma canonical_mantissa_bound (m : positive) (e : Z) :
  canonical_mantissa prec emax m e = true -> Z.pos m < 2 ^ 53.
Proof.
  unfold canonical_mantissa, fexp, SpecFloat.emin, prec, emax. intros Hc.
  apply Z.eqb_eq in Hc.
  assert (Hdig : Z.pos (digits2_pos m) <= 53) by lia. clear Hc.
  pose proof (digits2_pos_bound m) as Hd.
  assert (Hpow : 2 ^ Z.pos (digits2_pos m) <= 2 ^ 53) by (apply Z.pow_le_mono_r; lia).
  eapply Z.lt_le_trans; eassumption.
Qed.

Lemma finite_le_one (x : float) (m : positive) (e : Z) :
  Prim2SF x = S754_finite false m e -> (x <=? 1)%float = true ->
  e <= -52 /\ Z.pos m <= 2 ^ (- e).
Proof.
  intros Hx Hle. rewrite leb_spec, Hx in Hle.
  change (Prim2SF 1) with (S754_finite false 4503599627370496 (-52)) in Hle.
  unfold SFleb, SFcompare in Hle.
  pose proof (Prim2SF_valid x) as Hv. rewrite Hx in Hv.
  unfold valid_binary, bounded in Hv.
  apply andb_prop in Hv as [Hc _]. apply canonical_mantissa_bound in Hc.
  destruct (Z.compare_spec e (-52)) as [He|He|He]; try discriminate.
  - subst e. split; [reflexivity|]. change (2 ^ (- -52)) with 4503599627370496.
    clear Hx Hc.
    destruct (Pos.compare_cont Eq m 4503599627370496) eqn:Hm; try discriminate.
    + apply Pos.compare_eq in Hm. subst m. reflexivity.
    + apply -> Pos.compare_lt_iff in Hm. apply Z.lt_le_incl. exact Hm.
  - split; [apply Z.lt_le_incl; exact He|].
    assert (Hpow : 2 ^ 53 <= 2 ^ (- e)).
    { apply Z.pow_le_mono_r; [reflexivity|]. clear Hx Hle Hc. lia. }
    apply Z.lt_le_incl. eapply Z.lt_le_trans; eassumption.
Qed.

(** [round(x, 3)] of a float between [0.0] and [1.0] lies between them. *)
Lemma py_round3_unit_interval (x : float) :
  (0 <=? x)%float = true -> (x <=? 1)%float = true ->
  (0 <=? py_round3 x)%float = true /\ (py_round3 x <=? 1)%float = true.
Proof.
  intros H0 H1. unfold py_round3.
  destruct (Prim2SF x) as [s|s| |s m e] eqn:Hx; auto.
  assert (Hs : s = false).
  { rewrite leb_spec, Hx in H0. destruct s; [discriminate|reflexivity]. }
  subst s. destruct (finite_le_one x m e Hx H1) as [He Hm].
  replace (-10 <? e) with false by (symmetry; apply Z.ltb_ge; lia).
  apply thousandth_in_unit_interval.
  apply round_half_even_bounds.
  - apply Z.pow_pos_nonneg; lia.
  - lia.
Qed.

(** ** The engine: failure, success and the empty page *)

(** The text of a result is joined from the texts of its blocks. *)
Lemma process_text_is_joined `{W : Externals} (img : image) (r : OCRResult) :
  process img = Ret r ->
  exists lines, map block_text (blocks r) = map PyStr lines /\
                text r = String.concat newline lines.
Proof.
  intros Hr. destruct (process_outcome img r Hr); subst; simpl; eauto.
  - exists []. auto.
  - exists []. auto.
Qed.

(** C1. Whatever exception the detector or the structuring of its answer
    raises, [process] returns: the result has the empty text, no block,
    [elapsed_seconds = 0] and [str(e)] as its error.  So [process] always
    returns a result, and a result with an error has neither text nor
    blocks. *)
Theorem process_reports_every_failure `{W : Externals} (img : image) :
  (forall e, _ocr img = Raise e ->
     process img = Ret (mkOCRResult "" [] (PyInt 0) (Some (str_exn e)))) /\
  (forall e, process_try img = Raise e ->
     process img = Ret (mkOCRResult "" [] (PyInt 0) (Some (str_exn e)))) /\
  (exists r, process img = Ret r) /\
  (forall r, process img = Ret r -> is_Some (error r) -> text r = "" /\ blocks r = []).
Proof.
  split; [|split; [|split]].
  - intros e He. unfold process, process_try. rewrite He. reflexivity.
  - intros e He. unfold process. rewrite He. reflexivity.
  - apply process_total.
  - intros r Hr [msg Hmsg]. destruct (process_outcome img r Hr); subst; simpl in *; auto.
    congruence.
Qed.

(** A failing session and a detection that lacks its confidence. *)
Lemma process_reports_every_failure_witness :
  @process Toy.W Toy.pic_fail
    = Ret (mkOCRResult "" [] (PyInt 0) (Some "inference failed")) /\
  @process Toy.W Toy.pic_short
    = Ret (mkOCRResult "" [] (PyInt 0) (Some "list index out of range")).
Proof.
  split.
  - apply (proj1 (@process_reports_every_failure Toy.W Toy.pic_fail)
             (Exn "RuntimeError" "inference failed")).
    reflexivity.
  - apply (proj1 (proj2 (@process_reports_every_failure Toy.W Toy.pic_short))
             (IndexError "list index out of range")).
    reflexivity.
Defined.

(** C2. The text of a result is its blocks' texts joined by newlines, in
    the order of the blocks (the empty string when there is none), and when
    the detector gave a non-empty list and nothing failed the blocks are its
    detections, one each and in its order. *)
Theorem process_text_joins_blocks `{W : Externals} (img : image) (r : OCRResult) :
  process img = Ret r ->
  (exists lines, map block_text (blocks r) = map PyStr lines /\
                 text r = String.concat newline lines) /\
  (blocks r = [] -> text r = "") /\
  (forall raw_result elapsed_list,
     _ocr img = Ret (raw_result, elapsed_list) -> truthy raw_result = true ->
     error r = None ->
     exists items, py_iter raw_result = Ret items /\
       Forall2 (fun item b => py_getitem item 1 = Ret (block_text b)) items (blocks r)).
Proof.
  intros Hr. destruct (process_outcome img r Hr).
  - subst r. simpl. split; [exists []; auto|]. split; [auto|]. discriminate.
  - subst r. simpl. split; [exists []; auto|]. split; [auto|].
    intros raw' el' Hocr' Hraw'. congruence.
  - split; [eauto|]. split.
    + intros Hnil. rewrite Hnil in Hlines. destruct lines; [|discriminate].
      rewrite Htext. reflexivity.
    + intros raw' el' Hocr' _ _. rewrite Hocr in Hocr'. injection Hocr' as <- <-.
      exists items. split; [assumption|].
      eapply Forall2_impl; [exact Hblocks|]. intros item b [ ]. assumption.
Qed.

Lemma process_text_joins_blocks_witness :
  exists r, @process Toy.W Toy.pic_hello = Ret r /\
    map block_text (blocks r) = [PyStr "Hello"; PyStr "World"] /\
    text r = "Hello" ++ newline ++ "World".
Proof.
  destruct (@process_total Toy.W Toy.pic_hello) as [r Hr].
  exists r. split; [exact Hr|].
  destruct (@process_text_joins_blocks Toy.W Toy.pic_hello r Hr) as [[lines [Hl Ht]] _].
  vm_compute in Hr. injection Hr as <-. simpl in *.
  split; [reflexivity|]. destruct lines as [|? [|? [|]]]; try discriminate.
  injection Hl as <- <-. exact Ht.
Defined.

(** C5. When the detector gives [None] or an empty list, the result is the
    empty text, no block and no error, with the total of the stage times as
    [elapsed_seconds] (whenever that total is computed and can be logged):
    the int [0] when the list of times is [None] or empty, the sum of its
    floats otherwise. *)
Theorem process_no_text_found `{W : Externals} (img : image) (raw_result elapsed_list : pyval) :
  _ocr img = Ret (raw_result, elapsed_list) ->
  raw_result = PyNone \/ raw_result = PyList [] ->
  (forall total, total_elapsed elapsed_list = Ret total -> format_2f total = Ret tt ->
     process img = Ret (mkOCRResult "" [] total None)) /\
  (elapsed_list = PyNone \/ elapsed_list = PyList [] ->
     process img = Ret (mkOCRResult "" [] (PyInt 0) None)) /\
  (forall t ts, elapsed_list = PyList (map PyFloat (t :: ts)) ->
     process img
     = Ret (mkOCRResult "" [] (PyFloat (fold_left PrimFloat.add (t :: ts) 0%float)) None)).
Proof.
  intros Hocr Hraw.
  assert (Hfalsy : truthy raw_result = false) by (destruct Hraw; subst; reflexivity).
  assert (Hgen : forall total, total_elapsed elapsed_list = Ret total ->
            format_2f total = Ret tt ->
            process img = Ret (mkOCRResult "" [] total None)).
  { intros total Htotal Hformat. unfold process, process_try.
    rewrite Hocr. simpl. rewrite Htotal. simpl. rewrite Hfalsy. simpl.
    rewrite Hformat. reflexivity. }
  split; [exact Hgen|]. split.
  - intros Hel. apply Hgen; [destruct Hel; subst|]; reflexivity.
  - intros t ts ->. apply Hgen; [|reflexivity]. unfold total_elapsed.
    change (truthy (PyList (map PyFloat (t :: ts)))) with true. cbv iota.
    apply py_sum_floats.
Qed.

Lemma process_no_text_found_witness :
  @process Toy.W Toy.pic_blank = Ret (mkOCRResult "" [] (PyFloat 0.875) None).
Proof.
  apply (proj2 (proj2 (@process_no_text_found Toy.W Toy.pic_blank PyNone Toy.stage_times
                         eq_refl (or_introl eq_refl)))
           0.125%float [0.25%float; 0.5%float] eq_refl).
Defined.

(** ** Blocks *)

Section BlockFacts.
Context `{Externals}.

Lemma corners_length (points : list pyval) (bx : list (list float)) :
  Forall2 (fun p xy => point p = Ret xy) points bx ->
  length bx = length points /\ Forall (fun xy => length xy = 2%nat) bx.
Proof.
  induction 1 as [|p xy points bx Hp _ [IHl IHf]]; simpl.
  - split; [reflexivity | constructor].
  - split; [congruence|]. constructor; eauto using point_length.
Qed.

(** The blocks of a result are made from the detections position by
    position: the [i]-th block from the [i]-th detection. *)
Lemma block_origin_at (img : image) (r : OCRResult) (i : nat) (b : OCRBlock) :
  process img = Ret r -> blocks r !! i = Some b ->
  exists raw_result elapsed_list items item,
    _ocr img = Ret (raw_result, elapsed_list) /\ py_iter raw_result = Ret items /\
    length items = length (blocks r) /\
    items !! i = Some item /\ made_from item b.
Proof.
  intros Hr Hb. destruct (process_outcome img r Hr).
  - subst r. simpl in Hb. rewrite lookup_nil in Hb. discriminate.
  - subst r. simpl in Hb. rewrite lookup_nil in Hb. discriminate.
  - destruct (Forall2_lookup_r _ _ _ _ _ Hblocks Hb) as (item & Hitem & Hmade).
    exists raw_result, elapsed_list, items, item.
    repeat split; try assumption. eapply Forall2_length; eassumption.
Qed.

End BlockFacts.

(** C6, as the code has it.  The [i]-th block of a result is made from the
    [i]-th detection [item] of the detector, of which there are as many as
    blocks: its text is [item[1]], its box is the list of the points of
    [item[0]], each coerced to a pair [[float(p[0]), float(p[1])]], in their
    order (so one pair per point, four when [item[0]] is a quadrilateral),
    and its confidence is [round(float(item[2]), 3)], which lies in
    [0.0, 1.0] when [float(item[2])] does. *)
Theorem block_shape_follows_detection `{W : Externals}
    (img : image) (r : OCRResult) (i : nat) (b : OCRBlock) :
  process img = Ret r -> blocks r !! i = Some b ->
  exists raw_result elapsed_list items item raw_box points raw_confidence score,
    _ocr img = Ret (raw_result, elapsed_list) /\ py_iter raw_result = Ret items /\
    length items = length (blocks r) /\
    items !! i = Some item /\
    py_getitem item 0 = Ret raw_box /\ py_iter raw_box = Ret points /\
    py_getitem item 1 = Ret (block_text b) /\
    py_getitem item 2 = Ret raw_confidence /\ py_float raw_confidence = Ret score /\
    Forall2 (fun p xy => point p = Ret xy) points (box b) /\
    length (box b) = length points /\
    Forall (fun xy => length xy = 2%nat) (box b) /\
    (length points = 4%nat -> length (box b) = 4%nat) /\
    confidence b = py_round3 score /\
    ((0 <=? score)%float = true -> (score <=? 1)%float = true ->
     (0 <=? confidence b)%float = true /\ (confidence b <=? 1)%float = true).
Proof.
  intros Hr Hb.
  destruct (block_origin_at img r i b Hr Hb)
    as (raw & el & items & item & Hocr & Hit & Hlen & Hitem & Hmade).
  destruct Hmade as [raw_box raw_confidence score points].
  destruct (corners_length points (box b) Hcorners) as [Hsame Hpairs].
  exists raw, el, items, item, raw_box, points, raw_confidence, score.
  repeat (split; [assumption|]).
  split; [congruence|]. split; [assumption|].
  intros H0 H1. rewrite Hround. apply py_round3_unit_interval; assumption.
Qed.

(** The first block read from the two-line picture: the first detection
    has four corners and the score 0.9876543. *)
Lemma block_shape_follows_detection_witness :
  exists r b, @process Toy.W Toy.pic_hello = Ret r /\ blocks r !! 0%nat = Some b /\
    block_text b = PyStr "Hello" /\
    length (box b) = 4%nat /\
    (0 <=? confidence b)%float = true /\ (confidence b <=? 1)%float = true.
Proof.
  destruct (@process_total Toy.W Toy.pic_hello) as [r Hr].
  destruct (blocks r !! 0%nat) as [b|] eqn:Hb.
  2:{ exfalso. vm_compute in Hr. injection Hr as <-. discriminate Hb. }
  exists r, b. split; [exact Hr|]. split; [exact Hb|].
  destruct (@block_shape_follows_detection Toy.W Toy.pic_hello r 0%nat b Hr Hb)
    as (raw & el & items & item & raw_box & points & raw_conf & score
        & Hocr & Hit & _ & Hitem & Hgb & Hpts & Hgt & Hgc & Hsc & _ & _ & _
        & Hfour & _ & Hrange).
  injection Hocr as <- <-. injection Hit as <-. injection Hitem as <-.
  injection Hgb as <-. injection Hpts as <-. injection Hgt as Hgt.
  injection Hgc as <-. injection Hsc as <-.
  split; [symmetry; exact Hgt|]. split; [apply Hfour; reflexivity|].
  apply Hrange; reflexivity.
Defined.

(** C6 fails as stated: on a detection with three corners and the score
    [1.5] the block has three corners and the confidence [1.5]. *)
Lemma block_invariant_counterexample :
  exists r b, @process Toy.W Toy.pic_odd = Ret r /\ blocks r = [b] /\
    length (box b) = 3%nat /\ (confidence b <=? 1)%float = false.
Proof.
  eexists. eexists. split; [vm_compute; reflexivity|]. repeat split.
Qed.

(** ** Lines *)

Lemma splitlines_from_bound (s : string) : forall line after_cr,
  (length (splitlines_from s line after_cr) <= S (line_boundaries s))%nat.
Proof.
  induction s as [|c s IH]; intros line after_cr; simpl.
  - destruct (String.eqb line ""); simpl; lia.
  - destruct (after_cr && Ascii.eqb c LF).
    + specialize (IH "" false). lia.
    + destruct (is_line_boundary c); simpl.
      * specialize (IH "" (Ascii.eqb c CR)). lia.
      * specialize (IH (line ++ String c "") false). lia.
Qed.

Lemma line_boundaries_app (s t : string) :
  line_boundaries (s ++ t) = (line_boundaries s + line_boundaries t)%nat.
Proof.
  induction s as [|c s IH]; simpl; [reflexivity|]. rewrite IH. lia.
Qed.

(** The text joined from [lines] has one boundary between two lines, and
    those of the lines. *)
Lemma line_boundaries_concat (l : string) (lines : list string) :
  S (line_boundaries (String.concat newline (l :: lines)))
  = (length (l :: lines) + list_sum (map line_boundaries (l :: lines)))%nat.
Proof.
  revert l. induction lines as [|l' lines IH]; intros l.
  - simpl. lia.
  - change (String.concat newline (l :: l' :: lines))
      with (l ++ newline ++ String.concat newline (l' :: lines)).
    rewrite !line_boundaries_app. change (line_boundaries newline) with 1%nat.
    specialize (IH l').
    change (length (l :: l' :: lines)) with (S (length (l' :: lines))).
    change (map line_boundaries (l :: l' :: lines))
      with (line_boundaries l :: map line_boundaries (l' :: lines)).
    change (list_sum (line_boundaries l :: map line_boundaries (l' :: lines)))
      with (line_boundaries l + list_sum (map line_boundaries (l' :: lines)))%nat.
    lia.
Qed.

Lemma splitlines_concat_bound (lines : list string) :
  (length (splitlines (String.concat newline lines))
   <= length lines + list_sum (map line_boundaries lines))%nat.
Proof.
  destruct lines as [|l lines]; [simpl; lia|].
  pose proof (line_boundaries_concat l lines) as Hc.
  pose proof (splitlines_from_bound (String.concat newline (l :: lines)) "" false) as Hs.
  unfold splitlines. lia.
Qed.

(** C9, as the code has it.  When no block's text holds a line boundary,
    [text.splitlines()] has at most as many lines as there are blocks. *)
Theorem splitlines_at_most_blocks `{W : Externals} (img : image) (r : OCRResult) :
  process img = Ret r ->
  (forall b s, b ∈ blocks r -> block_text b = PyStr s -> line_boundaries s = 0%nat) ->
  (length (splitlines (text r)) <= length (blocks r))%nat.
Proof.
  intros Hr Hsingle.
  destruct (@process_text_is_joined _ img r Hr) as (lines & Hlines & Htext).
  rewrite Htext.
  assert (Hlen : length (blocks r) = length lines).
  { rewrite <- (length_map block_text), Hlines, length_map. reflexivity. }
  assert (Hzero : list_sum (map line_boundaries lines) = 0%nat).
  { assert (Hall : Forall (fun s => line_boundaries s = 0%nat) lines).
    { apply Forall_forall. intros s Hs.
      assert (Hps : PyStr s ∈ map block_text (blocks r)).
      { rewrite Hlines. apply list_elem_of_fmap. exists s. auto. }
      apply list_elem_of_fmap in Hps as (b & Hbt & Hb). eauto. }
    clear -Hall. induction Hall as [|s ss Hs _ IH]; simpl; lia. }
  pose proof (splitlines_concat_bound lines). lia.
Qed.

(** The picture of two lines: two blocks, two lines. *)
Lemma splitlines_at_most_blocks_witness :
  exists r, @process Toy.W Toy.pic_hello = Ret r /\
    (length (splitlines (text r)) <= length (blocks r))%nat.
Proof.
  destruct (@process_total Toy.W Toy.pic_hello) as [r Hr].
  exists r. split; [exact Hr|].
  apply (@splitlines_at_most_blocks Toy.W Toy.pic_hello r Hr).
  intros b s Hb Hs. vm_compute in Hr. injection Hr as <-. simpl in Hb.
  apply elem_of_cons in Hb as [->|Hb]; [injection Hs as <-; reflexivity|].
  apply list_elem_of_singleton in Hb as ->. injection Hs as <-. reflexivity.
Defined.

(** C9 fails as stated: one detection whose text holds a line feed gives
    one block and a text of two lines. *)
Lemma splitlines_counterexample :
  exists r, @process Toy.W Toy.pic_two_lines = Ret r /\
    length (blocks r) = 1%nat /\ length (splitlines (text r)) = 2%nat.
Proof.
  eexists. split; [vm_compute; reflexivity|]. split; reflexivity.
Qed.

(** ** Responses *)

Lemma response_keys (k : string) (a b : pyval) (c : option pyval) :
  is_Some ((match c with
            | Some v => <["error" := v]> ({[ "text" := a; "blocks" := b ]} : gmap string pyval)
            | None => {[ "text" := a; "blocks" := b ]}
            end) !! k) ->
  k ∈ ["text"; "blocks"; "error"].
Proof.
  destruct (decide (k = "text")) as [->|Ht]; [intros _; set_solver|].
  destruct (decide (k = "blocks")) as [->|Hb]; [intros _; set_solver|].
  destruct (decide (k = "error")) as [->|He]; [intros _; set_solver|].
  destruct c; simplify_map_eq; intros [? ?]; discriminate.
Qed.

Lemma error_response_well_formed (msg : string) : well_formed (error_response msg).
Proof.
  split; [eexists; reflexivity|]. split; [eexists; reflexivity|]. split.
  - intros v [= <-]. eauto.
  - intros k. apply (response_keys k (PyStr "") (PyList []) (Some (PyStr msg))).
Qed.

Lemma error_response_empty_handed (msg : string) : empty_handed (error_response msg).
Proof. split; reflexivity. Qed.

Lemma to_dict_text (r : OCRResult) : to_dict r !! "text" = Some (PyStr (text r)).
Proof.
  unfold to_dict. destruct (error r) as [e|]; [destruct (String.eqb e "")|]; reflexivity.
Qed.

Lemma to_dict_blocks (r : OCRResult) :
  to_dict r !! "blocks" = Some (PyList (map block_to_dict (blocks r))).
Proof.
  unfold to_dict. destruct (error r) as [e|]; [destruct (String.eqb e "")|]; reflexivity.
Qed.

(** The ["error"] key is written for a non-empty message only. *)
Lemma to_dict_error (r : OCRResult) :
  to_dict r !! "error"
  = match error r with
    | Some e => if String.eqb e "" then None else Some (PyStr e)
    | None => None
    end.
Proof.
  unfold to_dict. destruct (error r) as [e|]; [destruct (String.eqb e "")|]; reflexivity.
Qed.

Lemma to_dict_well_formed (r : OCRResult) : well_formed (to_dict r).
Proof.
  split; [rewrite to_dict_text; eauto|]. split; [rewrite to_dict_blocks; eauto|]. split.
  - intros v. rewrite to_dict_error.
    destruct (error r) as [e|]; [destruct (String.eqb e "")|]; intros [= <-]. eauto.
  - intros k. unfold to_dict.
    destruct (error r) as [e|]; [destruct (String.eqb e "")|]; simpl.
    + apply (response_keys k _ _ None).
    + apply (response_keys k _ _ (Some (PyStr e))).
    + apply (response_keys k _ _ None).
Qed.

Section ServerFacts.
Context `{Externals}.

(** A result of [process] that reports an error serializes to a response
    without text and without blocks. *)
Lemma to_dict_process_empty_handed (img : image) (r : OCRResult) :
  process img = Ret r -> is_Some (to_dict r !! "error") -> empty_handed (to_dict r).
Proof.
  intros Hr. rewrite to_dict_error. intros Herr.
  assert (Hsome : is_Some (error r)).
  { destruct (error r); [eauto | destruct Herr; discriminate]. }
  unfold empty_handed. rewrite to_dict_text, to_dict_blocks.
  destruct (process_outcome img r Hr); subst; simpl in *.
  - split; reflexivity.
  - destruct Hsome; discriminate.
  - rewrite Herror in Hsome. destruct Hsome; discriminate.
Qed.

(** What [data_uri_prefix] goes on with. *)
Lemma split_once_second (c : ascii) (s : string) :
  contains_char c s = true -> exists before after, split_once c s = [before; after].
Proof.
  induction s as [|a s IH]; simpl; [discriminate|].
  destruct (Ascii.eqb a c); simpl; [eauto|].
  intros Hc. destruct (IH Hc) as (before & after & ->). eauto.
Qed.

Lemma data_uri_prefix_total (s : string) :
  data_uri_prefix s = Ret (inl (error_response "Invalid data URI format")) \/
  exists payload, data_uri_prefix s = Ret (inr payload).
Proof.
  unfold data_uri_prefix. destruct (startswith "data:" s); [|eauto].
  destruct (contains_char "," s) eqn:Hc; [|auto].
  destruct (split_once_second _ _ Hc) as (before & after & ->). simpl. eauto.
Qed.

Lemma recognize_cases (img : image) :
  (exists e, recognize img = Raise e /\ engine_input img = Raise e) \/
  (exists img' r, engine_input img = Ret img' /\ process img' = Ret r /\
                  recognize img = Ret (to_dict r)).
Proof.
  unfold recognize. destruct (engine_input img) as [img'|e]; simpl; [|eauto].
  destruct (process_total img') as [r Hr]. rewrite Hr. simpl. eauto 10.
Qed.

(** From the opened image on, both handlers are [recognize] under the
    [except] clause. *)
Lemma ocr_from_base64_decoded (s : string) (img : image) :
  decodes_to s img ->
  ocr_from_base64 s
  = try_except (recognize img) (fun e => Ret (error_response (str_exn e))).
Proof.
  intros (payload & bs & Hp & Hb & Hi). unfold ocr_from_base64.
  rewrite Hp, Hb, Hi. reflexivity.
Qed.

Lemma eqb_empty_false (s : string) : s <> "" -> String.eqb s "" = false.
Proof. intros Hs. apply String.eqb_neq. exact Hs. Qed.

Lemma ocr_from_path_opened (p : string) (img : image) :
  opens_to p img ->
  ocr_from_path p
  = try_except (recognize img) (fun e => Ret (error_response (str_exn e))).
Proof.
  intros (Hne & Habs & Hex & Hfile & Hopen). unfold ocr_from_path.
  rewrite (eqb_empty_false p Hne), Habs, Hex, Hfile, Hopen. reflexivity.
Qed.

(** What both handlers answer once the image is open. *)
Lemma recognized_response (img : image) :
  (exists e, engine_input img = Raise e /\
     try_except (recognize img) (fun e => Ret (error_response (str_exn e)))
     = Ret (error_response (str_exn e))) \/
  (exists img' r, engine_input img = Ret img' /\ process img' = Ret r /\
     try_except (recognize img) (fun e => Ret (error_response (str_exn e)))
     = Ret (to_dict r)).
Proof.
  destruct (recognize_cases img) as [(e & -> & He)|(img' & r & Hin & Hr & ->)]; simpl; eauto 10.
Qed.

Lemma answer_well_formed (d : gmap string pyval) :
  answer d -> well_formed d /\ (is_Some (d !! "error") -> empty_handed d).
Proof.
  intros [(msg & ->)|(img & r & Hr & ->)].
  - split; [apply error_response_well_formed|]. intros _. apply error_response_empty_handed.
  - split; [apply to_dict_well_formed|]. eauto using to_dict_process_empty_handed.
Qed.

Lemma recognized_answer (img : image) :
  exists d, try_except (recognize img) (fun e => Ret (error_response (str_exn e))) = Ret d /\
            answer d.
Proof.
  destruct (recognized_response img) as [(e & _ & ->)|(img' & r & _ & Hr & ->)];
    eexists; (split; [reflexivity|]); [left|right]; eauto.
Qed.

Lemma ocr_from_base64_answer (s : string) :
  exists d, ocr_from_base64 s = Ret d /\ answer d.
Proof.
  unfold ocr_from_base64.
  destruct (data_uri_prefix_total s) as [->|(payload & ->)].
  { simpl. eexists. split; [reflexivity|]. left. eauto. }
  destruct (b64decode payload) as [bs|e].
  2:{ simpl. eexists. split; [reflexivity|]. left. eauto. }
  destruct (Image_open_bytes bs) as [img|e].
  2:{ simpl. eexists. split; [reflexivity|]. left. eauto. }
  apply recognized_answer.
Qed.

Lemma ocr_from_path_answer (p : string) :
  exists d, ocr_from_path p = Ret d /\ answer d.
Proof.
  unfold ocr_from_path.
  destruct (String.eqb p "").
  { simpl. eexists. split; [reflexivity|]. left. eauto. }
  destruct (isabs p); simpl.
  2:{ eexists. split; [reflexivity|]. left. eauto. }
  destruct (exists_ p); simpl.
  2:{ eexists. split; [reflexivity|]. left. eauto. }
  destruct (isfile p); simpl.
  2:{ eexists. split; [reflexivity|]. left. eauto. }
  destruct (Image_open_path p) as [img|e].
  2:{ simpl. eexists. split; [reflexivity|]. left. eauto. }
  apply recognized_answer.
Qed.

End ServerFacts.

(** ** The handlers: errors *)

(** C3. In [ocr_from_base64], a ["data:"] prefix without a comma gives the
    data URI error; a payload that does not decode gives the base64 error
    with the decoder's message; decoded bytes that do not open give the
    image format error; an exception of the conversion is reported by its
    message; the three error texts differ; and for every input the handler
    returns a well-formed response, which has the empty text and no block
    whenever it has the error key. *)
Theorem ocr_from_base64_reports_errors `{W : Externals} (image_base64 : string) :
  (startswith "data:" image_base64 = true -> contains_char "," image_base64 = false ->
     ocr_from_base64 image_base64 = Ret (error_response "Invalid data URI format")) /\
  (forall payload e,
     data_uri_prefix image_base64 = Ret (inr payload) -> b64decode payload = Raise e ->
     ocr_from_base64 image_base64
     = Ret (error_response ("Invalid base64: " ++ str_exn e))) /\
  (forall payload img_bytes e,
     data_uri_prefix image_base64 = Ret (inr payload) ->
     b64decode payload = Ret img_bytes -> Image_open_bytes img_bytes = Raise e ->
     ocr_from_base64 image_base64
     = Ret (error_response ("Invalid image format: " ++ str_exn e))) /\
  (forall img e,
     decodes_to image_base64 img -> engine_input img = Raise e ->
     ocr_from_base64 image_base64 = Ret (error_response (str_exn e))) /\
  (forall e1 e2,
     "Invalid data URI format" <> "Invalid base64: " ++ str_exn e1 /\
     "Invalid data URI format" <> "Invalid image format: " ++ str_exn e2 /\
     "Invalid base64: " ++ str_exn e1 <> "Invalid image format: " ++ str_exn e2) /\
  (exists d, ocr_from_base64 image_base64 = Ret d /\ well_formed d /\
             (is_Some (d !! "error") -> empty_handed d)).
Proof.
  repeat apply conj.
  - intros Hp Hc. unfold ocr_from_base64, data_uri_prefix. rewrite Hp, Hc. reflexivity.
  - intros payload e Hp Hb. unfold ocr_from_base64. rewrite Hp, Hb. reflexivity.
  - intros payload bs e Hp Hb Hi. unfold ocr_from_base64. rewrite Hp, Hb, Hi. reflexivity.
  - intros img e Hd He. rewrite (ocr_from_base64_decoded _ _ Hd).
    unfold recognize. rewrite He. reflexivity.
  - intros e1 e2. repeat split; discriminate.
  - destruct (ocr_from_base64_answer image_base64) as (d & Hd & Ha).
    exists d. split; [exact Hd|]. apply answer_well_formed. exact Ha.
Qed.

(** A prefix without comma, text that is no base64, and bytes that are no
    image. *)
Lemma ocr_from_base64_reports_errors_witness :
  @ocr_from_base64 Toy.W "data:image/png;base64"
    = Ret (error_response "Invalid data URI format") /\
  @ocr_from_base64 Toy.W "data:image/png;base64,xx"
    = Ret (error_response "Invalid base64: Incorrect padding") /\
  @ocr_from_base64 Toy.W "dGV4dA=="
    = Ret (error_response "Invalid image format: cannot identify image file").
Proof.
  split; [|split].
  - apply (@ocr_from_base64_reports_errors Toy.W "data:image/png;base64"); reflexivity.
  - apply (proj1 (proj2 (@ocr_from_base64_reports_errors Toy.W "data:image/png;base64,xx"))
             "xx" (Exn "Error" "Incorrect padding")); reflexivity.
  - apply (proj1 (proj2 (proj2 (@ocr_from_base64_reports_errors Toy.W "dGV4dA==")))
             "dGV4dA==" (Toy.bytes_of "text")
             (Exn "UnidentifiedImageError" "cannot identify image file")); reflexivity.
Defined.

(** C4. [ocr_from_path] checks, in this order and stopping at the first
    failure, that the path is not empty, is absolute, exists and is a
    regular file; each failure has its own error text; and for every input
    the handler returns a well-formed response, which has the empty text and
    no block whenever it has the error key. *)
Theorem ocr_from_path_validates_in_order `{W : Externals} (file_path : string) :
  (file_path = "" ->
     ocr_from_path file_path = Ret (error_response "File path is required")) /\
  (file_path <> "" -> isabs file_path = false ->
     ocr_from_path file_path = Ret (error_response "File path must be absolute")) /\
  (file_path <> "" -> isabs file_path = true -> exists_ file_path = false ->
     ocr_from_path file_path = Ret (error_response ("File not found: " ++ file_path))) /\
  (file_path <> "" -> isabs file_path = true -> exists_ file_path = true ->
   isfile file_path = false ->
     ocr_from_path file_path = Ret (error_response ("Not a file: " ++ file_path))) /\
  (forall p q,
     "File path is required" <> "File path must be absolute" /\
     "File path is required" <> "File not found: " ++ p /\
     "File path is required" <> "Not a file: " ++ q /\
     "File path must be absolute" <> "File not found: " ++ p /\
     "File path must be absolute" <> "Not a file: " ++ q /\
     "File not found: " ++ p <> "Not a file: " ++ q) /\
  (exists d, ocr_from_path file_path = Ret d /\ well_formed d /\
             (is_Some (d !! "error") -> empty_handed d)).
Proof.
  repeat apply conj.
  - intros ->. reflexivity.
  - intros Hne Habs. unfold ocr_from_path.
    rewrite (eqb_empty_false _ Hne), Habs. reflexivity.
  - intros Hne Habs Hex. unfold ocr_from_path.
    rewrite (eqb_empty_false _ Hne), Habs, Hex. reflexivity.
  - intros Hne Habs Hex Hfile. unfold ocr_from_path.
    rewrite (eqb_empty_false _ Hne), Habs, Hex, Hfile. reflexivity.
  - intros p q. repeat split; discriminate.
  - destruct (ocr_from_path_answer file_path) as (d & Hd & Ha).
    exists d. split; [exact Hd|]. apply answer_well_formed. exact Ha.
Qed.

(** The empty path, a relative path, a path that is not there and a
    directory. *)
Lemma ocr_from_path_validates_in_order_witness :
  @ocr_from_path Toy.W "" = Ret (error_response "File path is required") /\
  @ocr_from_path Toy.W "relative/path.png"
    = Ret (error_response "File path must be absolute") /\
  @ocr_from_path Toy.W "/nonexistent/file.png"
    = Ret (error_response "File not found: /nonexistent/file.png") /\
  @ocr_from_path Toy.W "/some/directory"
    = Ret (error_response "Not a file: /some/directory").
Proof.
  split; [|split; [|split]].
  - apply (@ocr_from_path_validates_in_order Toy.W ""). reflexivity.
  - apply (@ocr_from_path_validates_in_order Toy.W "relative/path.png");
      [discriminate | reflexivity].
  - apply (@ocr_from_path_validates_in_order Toy.W "/nonexistent/file.png");
      [discriminate | reflexivity | reflexivity].
  - apply (@ocr_from_path_validates_in_order Toy.W "/some/directory");
      [discriminate | reflexivity | reflexivity | reflexivity].
Defined.

(** ** The handlers: the image handed to the engine *)

Section NormalizationFacts.
Context `{Externals}.

Lemma engine_input_converted (img : image) :
  mode img ∈ converted_modes -> engine_input img = convert img "RGB".
Proof. intros Hm. unfold engine_input. rewrite bool_decide_eq_true_2; auto. Qed.

Lemma engine_input_other (img : image) :
  mode img ∉ converted_modes -> engine_input img = Ret img.
Proof. intros Hm. unfold engine_input. rewrite bool_decide_eq_false_2; auto. Qed.

(** The response, given the image that reaches the engine. *)
Lemma recognize_through (img img' : image) :
  engine_input img = Ret img' ->
  exists r, process img' = Ret r /\
    try_except (recognize img) (fun e => Ret (error_response (str_exn e)))
    = Ret (to_dict r).
Proof.
  intros Hin. destruct (process_total img') as [r Hr]. exists r. split; [exact Hr|].
  unfold recognize. rewrite Hin. simpl. rewrite Hr. reflexivity.
Qed.

End NormalizationFacts.

(** C8. Both handlers hand the RGB conversion of the image to the engine
    when its mode is RGBA, P, LA or L, and the image itself for every other
    mode: the response is the serialized result of [process] on that image.
    So an RGBA image and its RGB conversion get the same response, from
    either handler. *)
Theorem handlers_convert_four_modes `{W : Externals} (img : image) :
  (forall s rgb, decodes_to s img -> mode img ∈ ["RGBA"; "P"; "LA"; "L"] ->
     convert img "RGB" = Ret rgb ->
     exists r, process rgb = Ret r /\ ocr_from_base64 s = Ret (to_dict r)) /\
  (forall s, decodes_to s img -> mode img ∉ ["RGBA"; "P"; "LA"; "L"] ->
     exists r, process img = Ret r /\ ocr_from_base64 s = Ret (to_dict r)) /\
  (forall p rgb, opens_to p img -> mode img ∈ ["RGBA"; "P"; "LA"; "L"] ->
     convert img "RGB" = Ret rgb ->
     exists r, process rgb = Ret r /\ ocr_from_path p = Ret (to_dict r)) /\
  (forall p, opens_to p img -> mode img ∉ ["RGBA"; "P"; "LA"; "L"] ->
     exists r, process img = Ret r /\ ocr_from_path p = Ret (to_dict r)) /\
  (forall rgb, mode img = "RGBA" -> convert img "RGB" = Ret rgb -> mode rgb = "RGB" ->
     (forall s s', decodes_to s img -> decodes_to s' rgb ->
        ocr_from_base64 s = ocr_from_base64 s') /\
     (forall p p', opens_to p img -> opens_to p' rgb ->
        ocr_from_path p = ocr_from_path p')).
Proof.
  assert (Hconv : forall rgb, mode img ∈ converted_modes -> convert img "RGB" = Ret rgb ->
            engine_input img = Ret rgb).
  { intros rgb Hm Hc. rewrite engine_input_converted; assumption. }
  repeat apply conj.
  - intros s rgb Hd Hm Hc. rewrite (ocr_from_base64_decoded _ _ Hd).
    apply recognize_through. auto.
  - intros s Hd Hm. rewrite (ocr_from_base64_decoded _ _ Hd).
    apply recognize_through. apply engine_input_other. exact Hm.
  - intros p rgb Hd Hm Hc. rewrite (ocr_from_path_opened _ _ Hd).
    apply recognize_through. auto.
  - intros p Hd Hm. rewrite (ocr_from_path_opened _ _ Hd).
    apply recognize_through. apply engine_input_other. exact Hm.
  - intros rgb Hrgba Hc Hrgb.
    assert (Hin : mode img ∈ converted_modes)
      by (rewrite Hrgba; apply (bool_decide_eq_true _); reflexivity).
    assert (Hout : mode rgb ∉ converted_modes)
      by (rewrite Hrgb; apply (bool_decide_eq_false _); reflexivity).
    split.
    + intros s s' Hs Hs'.
      rewrite (ocr_from_base64_decoded _ _ Hs), (ocr_from_base64_decoded _ _ Hs').
      unfold recognize. rewrite (Hconv rgb Hin Hc), (engine_input_other rgb Hout).
      reflexivity.
    + intros p p' Hp Hp'.
      rewrite (ocr_from_path_opened _ _ Hp), (ocr_from_path_opened _ _ Hp').
      unfold recognize. rewrite (Hconv rgb Hin Hc), (engine_input_other rgb Hout).
      reflexivity.
Qed.

(** An RGBA picture and its RGB conversion, as base64 text and as files. *)
Lemma handlers_convert_four_modes_witness :
  @ocr_from_base64 Toy.W "cmdiYQ==" = @ocr_from_base64 Toy.W "aGVsbG8=" /\
  @ocr_from_path Toy.W "/data/rgba.png" = @ocr_from_path Toy.W "/data/hello.png".
Proof.
  destruct (proj2 (proj2 (proj2 (proj2
              (@handlers_convert_four_modes Toy.W Toy.pic_hello_rgba))))
              Toy.pic_hello eq_refl eq_refl eq_refl) as [Hb Hp].
  split.
  - apply Hb.
    + exists "cmdiYQ==", (Toy.bytes_of "rgba"). repeat split.
    + exists "aGVsbG8=", (Toy.bytes_of "hello"). repeat split.
  - apply Hp; repeat split; discriminate.
Defined.

(** ** The handlers: round trip *)

Lemma data_uri_prefix_plain `{W : Externals} (s : string) :
  startswith "data:" s = false -> data_uri_prefix s = Ret (inr s).
Proof. intros Hs. unfold data_uri_prefix. rewrite Hs. reflexivity. Qed.

Lemma to_dict_carries (r : OCRResult) : carries (to_dict r) r.
Proof.
  unfold carries. rewrite to_dict_text, to_dict_blocks, to_dict_error.
  repeat split.
  - intros ->. reflexivity.
  - intros e -> He. rewrite (eqb_empty_false e He). reflexivity.
Qed.

(** C7, as the code has it.  For base64 text that decodes to an image,
    [ocr_from_base64] answers with the serialized result of [process] on the
    decoded image when its mode is none of RGBA, P, LA and L, and on its RGB
    conversion when it is one of them.  The response carries the text and
    the blocks of that result, no error key when the result has no error,
    and its error when that is a non-empty message. *)
Theorem base64_round_trip `{W : Externals}
    (image_base64 : string) (img_bytes : list Byte.byte) (img : image) :
  startswith "data:" image_base64 = false ->
  b64decode image_base64 = Ret img_bytes ->
  Image_open_bytes img_bytes = Ret img ->
  (mode img ∉ ["RGBA"; "P"; "LA"; "L"] ->
     exists r, process img = Ret r /\
       ocr_from_base64 image_base64 = Ret (to_dict r) /\ carries (to_dict r) r) /\
  (forall rgb, mode img ∈ ["RGBA"; "P"; "LA"; "L"] -> convert img "RGB" = Ret rgb ->
     exists r, process rgb = Ret r /\
       ocr_from_base64 image_base64 = Ret (to_dict r) /\ carries (to_dict r) r).
Proof.
  intros Hplain Hb Hi.
  assert (Hd : decodes_to image_base64 img).
  { exists image_base64, img_bytes. auto using data_uri_prefix_plain. }
  rewrite (ocr_from_base64_decoded _ _ Hd). split.
  - intros Hm.
    destruct (recognize_through img img (engine_input_other img Hm)) as (r & Hr & Ho).
    exists r. auto using to_dict_carries.
  - intros rgb Hm Hc.
    assert (Hin : engine_input img = Ret rgb) by (rewrite engine_input_converted; assumption).
    destruct (recognize_through img rgb Hin) as (r & Hr & Ho).
    exists r. auto using to_dict_carries.
Qed.

(** The RGB picture of two lines: the response is the result of [process]
    on the decoded picture. *)
Lemma base64_round_trip_witness :
  exists r, @process Toy.W Toy.pic_hello = Ret r /\
    @ocr_from_base64 Toy.W "aGVsbG8=" = Ret (to_dict r).
Proof.
  destruct (proj1 (@base64_round_trip Toy.W "aGVsbG8=" (Toy.bytes_of "hello") Toy.pic_hello
                     eq_refl eq_refl eq_refl)) as (r & Hr & Ho & _).
  - apply (bool_decide_eq_false _). reflexivity.
  - exists r. split; assumption.
Defined.

(** C7 fails as stated: text that decodes to a palette picture on which the
    detector fails, and reads two lines once the picture is converted.  The
    handler answers with the two lines, [process] on the decoded picture
    with an error. *)
Lemma round_trip_counterexample :
  exists img r d,
    @b64decode Toy.W "cGFsZXR0ZQ==" = Ret (Toy.bytes_of "palette") /\
    @Image_open_bytes Toy.W (Toy.bytes_of "palette") = Ret img /\
    @process Toy.W img = Ret r /\
    @ocr_from_base64 Toy.W "cGFsZXR0ZQ==" = Ret d /\
    text r = "" /\ blocks r = [] /\ error r = Some "unsupported image mode" /\
    d !! "text" = Some (PyStr ("Hello" ++ newline ++ "World")) /\ d !! "error" = None.
Proof.
  exists Toy.pic_palette. eexists. eexists.
  split; [reflexivity|]. split; [reflexivity|].
  split; [vm_compute; reflexivity|]. split; [vm_compute; reflexivity|].
  repeat split.
Qed.

(** ** Serialization of a failure without message *)

(** C10 does not hold of the code.  The session raises an exception whose
    [str] is empty: [process] returns a result with the error [""],
    [to_dict] leaves the ["error"] key out, and the response of the handler
    is the response to a white page. *)
Theorem to_dict_drops_empty_error :
  @process Toy.W Toy.pic_crash = Ret (mkOCRResult "" [] (PyInt 0) (Some "")) /\
  to_dict (mkOCRResult "" [] (PyInt 0) (Some "")) !! "error" = None /\
  @ocr_from_base64 Toy.W "Y3Jhc2g=" = Ret {[ "text" := PyStr ""; "blocks" := PyList [] ]} /\
  @ocr_from_base64 Toy.W "Y3Jhc2g=" = @ocr_from_base64 Toy.W "Ymxhbms=".
Proof.
  repeat split.
Qed.

(** X1. The response of [to_dict] has the ["error"] key exactly when the
    error of the result is a non-empty string, and then holds that string. *)
Theorem error_key_iff_message (r : OCRResult) (e : string) :
  to_dict r !! "error" = Some (PyStr e) <-> error r = Some e /\ e <> "".
Proof.
  rewrite to_dict_error. destruct (error r) as [e'|].
  - destruct (String.eqb_spec e' "") as [->|Hne].
    + split; [discriminate|]. intros [[= <-] Hne]. congruence.
    + split; [intros [= <-]; auto|]. intros [[= <-] _]. reflexivity.
  - split; [discriminate|]. intros [[=] _].
Qed.

(** ** The data URI prefix *)

Lemma startswith_app (p s t : string) :
  startswith p s = true -> startswith p (s ++ t) = true.
Proof.
  unfold startswith. revert s. induction p as [|a p IH]; intros s.
  { intros _. destruct (s ++ t); reflexivity. }
  destruct s as [|b s]; simpl; [discriminate|].
  destruct (ascii_dec a b); [apply IH|discriminate].
Qed.

Lemma contains_char_app (c : ascii) (s t : string) :
  contains_char c (s ++ String c t) = true.
Proof.
  induction s as [|a s IH]; simpl.
  - rewrite Ascii.eqb_refl. reflexivity.
  - rewrite IH. apply orb_true_r.
Qed.

Lemma split_once_app (c : ascii) (s t : string) :
  contains_char c s = false -> split_once c (s ++ String c t) = [s; t].
Proof.
  induction s as [|a s IH]; simpl.
  - rewrite Ascii.eqb_refl. reflexivity.
  - destruct (Ascii.eqb a c); simpl; [discriminate|].
    intros Hs. rewrite (IH Hs). reflexivity.
Qed.

(** X2. A data URI and its bare payload get the same response: for a
    prefix that starts with ["data:"] and holds no comma, and a payload that
    does not itself start with ["data:"],
    [ocr_from_base64(prefix + "," + payload) = ocr_from_base64(payload)]. *)
Theorem data_uri_prefix_is_stripped `{W : Externals} (prefix payload : string) :
  startswith "data:" prefix = true -> contains_char "," prefix = false ->
  startswith "data:" payload = false ->
  ocr_from_base64 (prefix ++ "," ++ payload) = ocr_from_base64 payload.
Proof.
  intros Hp Hc Hb. unfold ocr_from_base64, data_uri_prefix.
  change ("," ++ payload) with (String "," payload).
  rewrite (startswith_app _ _ _ Hp), contains_char_app, (split_once_app _ _ _ Hc), Hb.
  reflexivity.
Qed.

Lemma data_uri_prefix_is_stripped_witness :
  @ocr_from_base64 Toy.W "data:image/png;base64,aGVsbG8="
  = @ocr_from_base64 Toy.W "aGVsbG8=".
Proof.
  apply (@data_uri_prefix_is_stripped Toy.W "data:image/png;base64" "aGVsbG8=");
    reflexivity.
Defined.

(** ** The loop of [process], detection by detection *)

Section LoopFacts.
Context `{Externals}.

(** The loop adds to the lists it is given what it computes from scratch. *)
Lemma process_loop_acc (items : list pyval) : forall bs ls,
  process_loop items bs ls
  = match process_loop items [] [] with
    | Ret (new, lines) => Ret ((bs ++ new)%list, (ls ++ lines)%list)
    | Raise e => Raise e
    end.
Proof.
  induction items as [|item items IH]; intros bs ls; simpl.
  - rewrite !app_nil_r. reflexivity.
  - destruct (make_block item) as [[b t]|e]; simpl; [|reflexivity].
    rewrite (IH (bs ++ [b])%list (ls ++ [t])%list), (IH [b] [t]).
    destruct (process_loop items [] []) as [[new lines]|e]; [|reflexivity].
    rewrite <- !app_assoc. reflexivity.
Qed.

Lemma process_loop_app (l1 l2 : list pyval) : forall bs ls,
  process_loop (l1 ++ l2) bs ls
  = ' (bs', ls') <- process_loop l1 bs ls ;; process_loop l2 bs' ls'.
Proof.
  induction l1 as [|item l1 IH]; intros bs ls; simpl; [reflexivity|].
  destruct (make_block item) as [[b t]|e]; simpl; [apply IH | reflexivity].
Qed.

(** The loop stops at the first detection that cannot be made a block. *)
Lemma process_loop_first_failure (before after : list pyval) (item : pyval) (e : exn) :
  Forall (fun x => exists bt, make_block x = Ret bt) before ->
  make_block item = Raise e ->
  forall bs ls, process_loop (before ++ item :: after) bs ls = Raise e.
Proof.
  intros Hgood Hbad. induction Hgood as [|x before [[b t] Hx] _ IH]; intros bs ls; simpl.
  - rewrite Hbad. reflexivity.
  - rewrite Hx. simpl. apply IH.
Qed.

(** What a result without error says of the run that made it. *)
Lemma process_found_inv (img : image) (r : OCRResult) (raw el : pyval) :
  process img = Ret r -> error r = None ->
  _ocr img = Ret (raw, el) -> truthy raw = true ->
  exists items total,
    py_iter raw = Ret items /\ total_elapsed el = Ret total /\
    process_loop items [] [] = Ret (blocks r, map block_text (blocks r)) /\
    format_2f total = Ret tt /\
    py_join newline (map block_text (blocks r)) = Ret (text r) /\
    elapsed_seconds r = total.
Proof.
  unfold process. intros Hr Herr Hocr Hraw.
  destruct (process_try img) as [r'|e] eqn:Ht; simpl in Hr.
  2:{ injection Hr as <-. discriminate Herr. }
  injection Hr as ->. unfold process_try in Ht. rewrite Hocr in Ht. simpl in Ht.
  bind_inv Ht. rewrite Hraw in Ht. simpl in Ht.
  bind_inv Ht. bind_inv Ht. destruct a1 as [bs ls]. bind_inv Ht. bind_inv Ht.
  injection Ht as <-. simpl.
  destruct (process_loop_inv _ _ _ _ _ Hm1) as (new & Hbs & Hls & _).
  simpl in Hbs, Hls. subst bs ls.
  repeat match goal with u : unit |- _ => destruct u end.
  exists a0, a. auto 10.
Qed.

End LoopFacts.

(** X3. All or nothing: when one detection of a non-empty detection list
    cannot be made a block while those before it can, [process] returns the
    error of that detection with the empty text and no block, whatever comes
    after it. *)
Theorem first_bad_detection_fails_the_call `{W : Externals}
    (img : image) (elapsed_list total : pyval)
    (before after : list pyval) (item : pyval) (e : exn) :
  _ocr img = Ret (PyList (before ++ item :: after), elapsed_list) ->
  total_elapsed elapsed_list = Ret total ->
  Forall (fun x => exists bt, make_block x = Ret bt) before ->
  make_block item = Raise e ->
  process img = Ret (mkOCRResult "" [] (PyInt 0) (Some (str_exn e))).
Proof.
  intros Hocr Htotal Hgood Hbad.
  assert (Htruthy : truthy (PyList (before ++ item :: after)) = true)
    by (destruct before; reflexivity).
  unfold process, process_try.
  rewrite Hocr. cbn [bind]. rewrite Htotal. cbn [bind]. rewrite Htruthy.
  cbn [negb py_iter bind].
  rewrite (process_loop_first_failure before after item e Hgood Hbad).
  reflexivity.
Qed.

(** A good detection, one that lacks its confidence, one with a bad box:
    the error is the second one's. *)
Lemma first_bad_detection_fails_the_call_witness :
  @process Toy.W Cases.pic_mixed
  = Ret (mkOCRResult "" [] (PyInt 0) (Some "list index out of range")).
Proof.
  apply (@first_bad_detection_fails_the_call Toy.W Cases.pic_mixed
           Toy.stage_times (PyFloat 0.875)
           [Toy.detection Toy.quad "Hello" 0.5]
           [Toy.detection (PyList [PyInt 1]) "x" 0.5]
           (PyList [Toy.quad; PyStr "Hi"])
           (IndexError "list index out of range")).
  - reflexivity.
  - reflexivity.
  - constructor; [|constructor]. eexists. vm_compute. reflexivity.
  - reflexivity.
Defined.

(** ** The elapsed time of a result *)

Section ElapsedFacts.
Context `{Externals}.

Lemma py_add_number (a b v : pyval) :
  py_add a b = Ret v -> (exists n, v = PyInt n) \/ (exists x, v = PyFloat x).
Proof.
  destruct a, b; simpl; try discriminate.
  - intros [= <-]. eauto.
  - intros Hb. bind_inv Hb. injection Hb as <-. eauto.
  - intros Hb. bind_inv Hb. injection Hb as <-. eauto.
  - intros [= <-]. eauto.
Qed.

Lemma sum_number (items : list pyval) : forall acc v,
  (forall a, acc = Ret a -> (exists n, a = PyInt n) \/ (exists x, a = PyFloat x)) ->
  fold_left (fun acc x => a <- acc ;; py_add a x) items acc = Ret v ->
  (exists n, v = PyInt n) \/ (exists x, v = PyFloat x).
Proof.
  induction items as [|x items IH]; intros acc v Hacc Hv; simpl in Hv; [auto|].
  apply (IH _ _) in Hv; [assumption|].
  intros a Ha. bind_inv Ha. eauto using py_add_number.
Qed.

Lemma total_elapsed_number (elapsed_list v : pyval) :
  total_elapsed elapsed_list = Ret v ->
  (exists n, v = PyInt n) \/ (exists x, v = PyFloat x).
Proof.
  unfold total_elapsed. destruct (truthy elapsed_list).
  - unfold py_sum. intros Hs. bind_inv Hs.
    apply sum_number in Hs; [assumption|]. intros a' [= <-]. eauto.
  - intros [= <-]. eauto.
Qed.

End ElapsedFacts.

(** X4. The [elapsed_seconds] of a result is always an int or a float: the
    int [0] in a result with an error, and otherwise the total of the
    detector's stage times, which for a non-empty list of floats is their
    sum from left to right, also when text was found. *)
Theorem elapsed_seconds_is_the_total `{W : Externals} (img : image) (r : OCRResult) :
  process img = Ret r ->
  ((exists n, elapsed_seconds r = PyInt n) \/ (exists x, elapsed_seconds r = PyFloat x)) /\
  (is_Some (error r) -> elapsed_seconds r = PyInt 0) /\
  (forall raw_result elapsed_list,
     _ocr img = Ret (raw_result, elapsed_list) -> error r = None ->
     total_elapsed elapsed_list = Ret (elapsed_seconds r)) /\
  (forall raw_result t ts,
     _ocr img = Ret (raw_result, PyList (map PyFloat (t :: ts))) -> error r = None ->
     elapsed_seconds r = PyFloat (fold_left PrimFloat.add (t :: ts) 0%float)).
Proof.
  intros Hr.
  assert (Htot : forall raw_result elapsed_list,
            _ocr img = Ret (raw_result, elapsed_list) -> error r = None ->
            total_elapsed elapsed_list = Ret (elapsed_seconds r)).
  { intros raw el Hocr' Herr'. destruct (process_outcome img r Hr).
    - subst r. discriminate Herr'.
    - subst r. simpl. congruence.
    - congruence. }
  split; [|split; [|split; [exact Htot|]]].
  - destruct (process_outcome img r Hr).
    + subst r. simpl. eauto.
    + subst r. simpl. eauto using total_elapsed_number.
    + subst total. eauto using total_elapsed_number.
  - intros [msg Hmsg]. destruct (process_outcome img r Hr); subst; simpl in *;
      [reflexivity | discriminate | congruence].
  - intros raw t ts Hocr' Herr'. specialize (Htot _ _ Hocr' Herr').
    unfold total_elapsed in Htot.
    change (truthy (PyList (map PyFloat (t :: ts)))) with true in Htot. cbv iota in Htot.
    rewrite py_sum_floats in Htot. congruence.
Qed.

(** The picture of two lines, read in three stages. *)
Lemma elapsed_seconds_is_the_total_witness :
  exists r, @process Toy.W Toy.pic_hello = Ret r /\ elapsed_seconds r = PyFloat 0.875.
Proof.
  destruct (@process_total Toy.W Toy.pic_hello) as [r Hr]. exists r. split; [exact Hr|].
  apply (proj2 (proj2 (proj2 (@elapsed_seconds_is_the_total Toy.W Toy.pic_hello r Hr)))
           (fst Toy.hello) 0.125%float [0.25%float; 0.5%float] eq_refl).
  vm_compute in Hr. injection Hr as <-. reflexivity.
Defined.

(** ** Detections are structured one by one *)

Lemma string_app_assoc (s t u : string) : (s ++ t) ++ u = s ++ t ++ u.
Proof.
  induction s as [|c s IH]; [reflexivity|].
  change (String c ((s ++ t) ++ u) = String c (s ++ t ++ u)). f_equal. exact IH.
Qed.

Lemma concat_app (sep : string) (l1 l2 : list string) :
  l1 <> [] -> l2 <> [] ->
  String.concat sep (l1 ++ l2) = String.concat sep l1 ++ sep ++ String.concat sep l2.
Proof.
  intros H1 H2. induction l1 as [|a l1 IH]; [congruence|].
  destruct l1 as [|b l1].
  - destruct l2 as [|c l2]; [congruence|]. reflexivity.
  - change (String.concat sep ((a :: b :: l1) ++ l2))
      with (a ++ sep ++ String.concat sep ((b :: l1) ++ l2)).
    rewrite IH by discriminate.
    change (String.concat sep (a :: b :: l1)) with (a ++ sep ++ String.concat sep (b :: l1)).
    rewrite !string_app_assoc. reflexivity.
Qed.

Lemma str_items_of_strings (ss : list string) (i : nat) :
  str_items i (map PyStr ss) = Ret ss.
Proof.
  revert i. induction ss as [|s ss IH]; intros i; simpl; [reflexivity|].
  rewrite IH. reflexivity.
Qed.

(** X5. Detections are made blocks one by one, in order: when the detector
    answers on a third image with the detections of a first image followed
    by those of a second (both non-empty, both read without error), the
    result has the blocks of the first result followed by those of the
    second, and the two texts joined by a newline. *)
Theorem detections_compose `{W : Externals}
    (img1 img2 img : image) (l1 l2 : list pyval) (el1 el2 el total : pyval)
    (r1 r2 : OCRResult) :
  _ocr img1 = Ret (PyList l1, el1) -> _ocr img2 = Ret (PyList l2, el2) ->
  _ocr img = Ret (PyList (l1 ++ l2), el) ->
  l1 <> [] -> l2 <> [] ->
  process img1 = Ret r1 -> error r1 = None ->
  process img2 = Ret r2 -> error r2 = None ->
  total_elapsed el = Ret total -> format_2f total = Ret tt ->
  process img
  = Ret (mkOCRResult (text r1 ++ newline ++ text r2) (blocks r1 ++ blocks r2) total None).
Proof.
  intros Hocr1 Hocr2 Hocr Hne1 Hne2 Hr1 He1 Hr2 He2 Htotal Hformat.
  assert (Ht1 : truthy (PyList l1) = true) by (destruct l1; [congruence|reflexivity]).
  assert (Ht2 : truthy (PyList l2) = true) by (destruct l2; [congruence|reflexivity]).
  assert (Ht : truthy (PyList (l1 ++ l2)) = true) by (destruct l1; [congruence|reflexivity]).
  destruct (process_found_inv img1 r1 _ _ Hr1 He1 Hocr1 Ht1)
    as (items1 & tot1 & [= <-] & _ & Hloop1 & _ & Hjoin1 & _).
  destruct (process_found_inv img2 r2 _ _ Hr2 He2 Hocr2 Ht2)
    as (items2 & tot2 & [= <-] & _ & Hloop2 & _ & Hjoin2 & _).
  apply py_join_inv in Hjoin1 as (ss1 & Hss1 & Htext1).
  apply py_join_inv in Hjoin2 as (ss2 & Hss2 & Htext2).
  assert (Hn1 : ss1 <> []).
  { intros ->. destruct (blocks r1) eqn:Hb; [|discriminate]. destruct l1; [congruence|].
    simpl in Hloop1. destruct (make_block p) as [[b t]|]; [|discriminate]. simpl in Hloop1.
    rewrite process_loop_acc in Hloop1.
    destruct (process_loop l1 [] []) as [[? ?]|]; discriminate. }
  assert (Hn2 : ss2 <> []).
  { intros ->. destruct (blocks r2) eqn:Hb; [|discriminate]. destruct l2; [congruence|].
    simpl in Hloop2. destruct (make_block p) as [[b t]|]; [|discriminate]. simpl in Hloop2.
    rewrite process_loop_acc in Hloop2.
    destruct (process_loop l2 [] []) as [[? ?]|]; discriminate. }
  unfold process, process_try.
  rewrite Hocr. cbn [bind]. rewrite Htotal. cbn [bind]. rewrite Ht.
  cbn [negb py_iter bind].
  rewrite process_loop_app, Hloop1. cbn [bind].
  rewrite process_loop_acc, Hloop2. cbn [bind]. rewrite Hformat. cbn [bind].
  unfold py_join. rewrite Hss1, Hss2, <- map_app, str_items_of_strings. cbn [bind try_except].
  rewrite (concat_app _ _ _ Hn1 Hn2), Htext1, Htext2. reflexivity.
Qed.

(** The two lines of [Toy.hello], one picture each. *)
Lemma detections_compose_witness :
  exists r1 r2,
    @process Toy.W Cases.pic_first = Ret r1 /\ @process Toy.W Cases.pic_second = Ret r2 /\
    @process Toy.W Toy.pic_hello
    = Ret (mkOCRResult (text r1 ++ newline ++ text r2) (blocks r1 ++ blocks r2)
             (PyFloat 0.875) None).
Proof.
  destruct (@process_total Toy.W Cases.pic_first) as [r1 Hr1].
  destruct (@process_total Toy.W Cases.pic_second) as [r2 Hr2].
  exists r1, r2. split; [exact Hr1|]. split; [exact Hr2|].
  apply (@detections_compose Toy.W Cases.pic_first Cases.pic_second Toy.pic_hello
           [Toy.detection Toy.quad "Hello" 0x1.f9add30c81ee8p-1]
           [Toy.detection Toy.quad "World" 0.5]
           Toy.stage_times PyNone Toy.stage_times (PyFloat 0.875) r1 r2);
    try reflexivity; try discriminate; try assumption.
  - vm_compute in Hr1. injection Hr1 as <-. reflexivity.
  - vm_compute in Hr2. injection Hr2 as <-. reflexivity.
Defined.

(** ** What serialization keeps *)

Lemma map_injective {A B : Type} (f : A -> B) :
  (forall x y, f x = f y -> x = y) -> forall l1 l2, map f l1 = map f l2 -> l1 = l2.
Proof.
  intros Hf. induction l1 as [|x l1 IH]; intros [|y l2]; simpl; try discriminate.
  - reflexivity.
  - intros [= Hxy Hl]. f_equal; auto.
Qed.

Lemma block_to_dict_injective (b1 b2 : OCRBlock) :
  block_to_dict b1 = block_to_dict b2 -> b1 = b2.
Proof.
  destruct b1 as [t1 c1 bx1], b2 as [t2 c2 bx2]. unfold block_to_dict. simpl.
  intros Hd.
  pose (get := fun (k : string) (v : pyval) =>
                 match v with PyDict d => d !! k | _ => None end).
  pose proof (f_equal (get "text") Hd) as Ht.
  pose proof (f_equal (get "confidence") Hd) as Hc.
  pose proof (f_equal (get "box") Hd) as Hb.
  clear Hd.
  change (Some t1 = Some t2) in Ht.
  change (Some (PyFloat c1) = Some (PyFloat c2)) in Hc.
  change (Some (PyList (map (fun p => PyList (map PyFloat p)) bx1))
          = Some (PyList (map (fun p => PyList (map PyFloat p)) bx2))) in Hb.
  injection Ht as ->. injection Hc as ->. injection Hb as Hb.
  apply map_injective in Hb as ->; [reflexivity|].
  intros p q [= Hpq]. apply map_injective in Hpq; [assumption|]. congruence.
Qed.

(** X6. Serialization loses the elapsed time and nothing else that a
    caller could tell apart: two results have the same [to_dict] exactly
    when they have the same text, the same blocks and the same non-empty
    error (an empty error and no error are serialized alike). *)
Theorem to_dict_equal_iff (r1 r2 : OCRResult) :
  to_dict r1 = to_dict r2 <->
  text r1 = text r2 /\ blocks r1 = blocks r2 /\
  (forall e, e <> "" -> (error r1 = Some e <-> error r2 = Some e)).
Proof.
  split.
  - intros Heq.
    pose proof (to_dict_text r1) as Ht1. pose proof (to_dict_blocks r1) as Hb1.
    pose proof (to_dict_error r1) as He1.
    rewrite Heq, to_dict_text in Ht1. rewrite Heq, to_dict_blocks in Hb1.
    rewrite Heq, to_dict_error in He1.
    injection Ht1 as Ht. injection Hb1 as Hb.
    apply map_injective in Hb; [|apply block_to_dict_injective].
    split; [congruence|]. split; [congruence|].
    intros e Hne.
    destruct (error r1) as [e1|], (error r2) as [e2|];
      repeat match goal with
             | H : context [String.eqb ?x ""] |- _ =>
                 destruct (String.eqb_spec x ""); subst
             end;
      split; intros [= <-]; congruence.
  - intros (Ht & Hb & He). unfold to_dict. rewrite Ht, Hb.
    destruct (error r1) as [e1|], (error r2) as [e2|].
    + destruct (String.eqb_spec e1 "") as [->|Hne1], (String.eqb_spec e2 "") as [->|Hne2];
        simpl.
      * reflexivity.
      * pose proof (proj2 (He e2 Hne2) eq_refl). congruence.
      * pose proof (proj1 (He e1 Hne1) eq_refl). congruence.
      * pose proof (proj1 (He e1 Hne1) eq_refl). congruence.
    + destruct (String.eqb_spec e1 "") as [->|Hne1]; simpl; [reflexivity|].
      pose proof (proj1 (He e1 Hne1) eq_refl). discriminate.
    + destruct (String.eqb_spec e2 "") as [->|Hne2]; simpl; [reflexivity|].
      pose proof (proj2 (He e2 Hne2) eq_refl). discriminate.
    + reflexivity.
Qed.

(** ** The handlers on an image that does not open, and on the same image *)

(** X7. In [ocr_from_path], a path that passes the four checks and that
    PIL cannot open gives the error ["Failed to open image: "] followed by
    PIL's message, which differs from the four validation errors; an
    exception of the conversion to RGB is reported by its bare message. *)
Theorem ocr_from_path_open_failure `{W : Externals} (file_path : string) :
  (forall e,
     file_path <> "" -> isabs file_path = true -> exists_ file_path = true ->
     isfile file_path = true -> Image_open_path file_path = Raise e ->
     ocr_from_path file_path
     = Ret (error_response ("Failed to open image: " ++ str_exn e))) /\
  (forall img e,
     opens_to file_path img -> engine_input img = Raise e ->
     ocr_from_path file_path = Ret (error_response (str_exn e))) /\
  (forall e p q,
     "Failed to open image: " ++ str_exn e <> "File path is required" /\
     "Failed to open image: " ++ str_exn e <> "File path must be absolute" /\
     "Failed to open image: " ++ str_exn e <> "File not found: " ++ p /\
     "Failed to open image: " ++ str_exn e <> "Not a file: " ++ q).
Proof.
  repeat apply conj.
  - intros e Hne Habs Hex Hfile Hopen. unfold ocr_from_path.
    rewrite (eqb_empty_false _ Hne), Habs, Hex, Hfile, Hopen. reflexivity.
  - intros img e Hopen He. rewrite (ocr_from_path_opened _ _ Hopen).
    unfold recognize. rewrite He. reflexivity.
  - intros e p q. repeat split; discriminate.
Qed.

(** A text file with an absolute path. *)
Lemma ocr_from_path_open_failure_witness :
  @ocr_from_path Toy.W "/data/notes.txt"
  = Ret (error_response "Failed to open image: cannot identify image file").
Proof.
  apply (proj1 (@ocr_from_path_open_failure Toy.W "/data/notes.txt")
           (Exn "UnidentifiedImageError" "cannot identify image file"));
    [discriminate | reflexivity..].
Defined.

(** X8. The two handlers agree: a path that passes the checks and base64
    text that decodes, both to the same image, get the same response. *)
Theorem handlers_agree `{W : Externals} (file_path image_base64 : string) (img : image) :
  opens_to file_path img -> decodes_to image_base64 img ->
  ocr_from_path file_path = ocr_from_base64 image_base64.
Proof.
  intros Hp Hs.
  rewrite (ocr_from_path_opened _ _ Hp), (ocr_from_base64_decoded _ _ Hs). reflexivity.
Qed.

Lemma handlers_agree_witness :
  @ocr_from_path Toy.W "/data/hello.png" = @ocr_from_base64 Toy.W "aGVsbG8=".
Proof.
  apply (@handlers_agree Toy.W "/data/hello.png" "aGVsbG8=" Toy.pic_hello).
  - repeat split. discriminate.
  - exists "aGVsbG8=", (Toy.bytes_of "hello"). repeat split.
Defined.

(** ** The test of the data URI prefix *)

(** X9. [test_data_uri_format] strips the prefix as [ocr_from_base64] does
    whenever the handler goes on to decode; on text that starts with
    ["data:"] and holds no comma the two part: the test keeps the text as it
    is, the handler answers with the data URI error. *)
Theorem test_strip_prefix_mirrors_handler (data_uri : string) :
  (forall payload,
     data_uri_prefix data_uri = Ret (inr payload) ->
     test_strip_prefix data_uri = Ret payload) /\
  (startswith "data:" data_uri = true -> contains_char "," data_uri = false ->
     test_strip_prefix data_uri = Ret data_uri /\
     data_uri_prefix data_uri = Ret (inl (error_response "Invalid data URI format"))).
Proof.
  unfold data_uri_prefix, test_strip_prefix. split.
  - intros payload. destruct (startswith "data:" data_uri); simpl.
    + destruct (contains_char "," data_uri); [|discriminate].
      destruct (split_once "," data_uri !! 1%nat); [|discriminate].
      intros [= <-]. reflexivity.
    + intros [= <-]. reflexivity.
  - intros -> ->. split; reflexivity.
Qed.

Lemma test_strip_prefix_mirrors_handler_witness :
  test_strip_prefix "data:image/png;base64,aGVsbG8=" = Ret "aGVsbG8=" /\
  test_strip_prefix "data:image/png;base64" = Ret "data:image/png;base64".
Proof.
  split.
  - apply (proj1 (test_strip_prefix_mirrors_handler "data:image/png;base64,aGVsbG8=")).
    reflexivity.
  - apply (proj2 (test_strip_prefix_mirrors_handler "data:image/png;base64"));
      reflexivity.
Defined.

(** ** image-processor: [remove_background] *)

(** X10. [remove_background] answers 400 "File must be an image" exactly
    when the upload has no content type or one that does not start with
    ["image/"] (the empty one included), and then whatever the upload
    holds. *)
Theorem remove_background_rejects_other_types `{P : ImageProcessor.Externals}
    (file : ImageProcessor.UploadFile) :
  (ImageProcessor.content_type file = None ->
     ImageProcessor.remove_background file
     = ImageProcessor.HTTPException 400 "File must be an image") /\
  (forall ct, ImageProcessor.content_type file = Some ct -> startswith "image/" ct = false ->
     ImageProcessor.remove_background file
     = ImageProcessor.HTTPException 400 "File must be an image") /\
  (forall detail,
     ImageProcessor.remove_background file = ImageProcessor.HTTPException 400 detail ->
     detail = "File must be an image" /\
     (ImageProcessor.content_type file = None \/
      exists ct, ImageProcessor.content_type file = Some ct /\
                 startswith "image/" ct = false)) /\
  (forall contents,
     ImageProcessor.not_an_image file = true ->
     ImageProcessor.remove_background
       (ImageProcessor.mkUploadFile (ImageProcessor.content_type file) contents)
     = ImageProcessor.remove_background file).
Proof.
  unfold ImageProcessor.remove_background, ImageProcessor.not_an_image.
  repeat apply conj.
  - intros ->. reflexivity.
  - intros ct -> ->. rewrite orb_true_r. reflexivity.
  - intros detail. destruct (ImageProcessor.content_type file) as [ct|].
    + destruct (startswith "image/" ct) eqn:Hs.
      * destruct ct as [|c ct]; [discriminate Hs|]. simpl.
        destruct (ImageProcessor.remove_background_try file); discriminate.
      * rewrite orb_true_r. intros [= <-]. eauto.
    + intros [= <-]. auto.
  - intros contents Hnot. simpl. rewrite Hnot. reflexivity.
Qed.

(** A text upload, and an upload without content type. *)
Lemma remove_background_rejects_other_types_witness :
  @ImageProcessor.remove_background ImageProcessor.T
    (ImageProcessor.mkUploadFile (Some "text/plain") (Ret (Toy.bytes_of "PNG")))
  = ImageProcessor.HTTPException 400 "File must be an image" /\
  @ImageProcessor.remove_background ImageProcessor.T
    (ImageProcessor.mkUploadFile None (Ret (Toy.bytes_of "PNG")))
  = ImageProcessor.HTTPException 400 "File must be an image".
Proof.
  split.
  - apply (proj1 (proj2 (@remove_background_rejects_other_types ImageProcessor.T _))
             "text/plain"); reflexivity.
  - apply (proj1 (@remove_background_rejects_other_types ImageProcessor.T _)).
    reflexivity.
Defined.

(** X11. On an upload whose content type starts with ["image/"],
    [remove_background] reads, opens, removes the background and saves as
    PNG: it answers 500 with the message of the first of these steps that
    raises, and otherwise returns the saved bytes as a 200 response of media
    type ["image/png"] with the attachment header. *)
Theorem remove_background_pipeline `{P : ImageProcessor.Externals}
    (file : ImageProcessor.UploadFile) (ct : string) :
  ImageProcessor.content_type file = Some ct -> startswith "image/" ct = true ->
  (forall e, ImageProcessor.read file = Raise e ->
     ImageProcessor.remove_background file = ImageProcessor.HTTPException 500 (str_exn e)) /\
  (forall contents e,
     ImageProcessor.read file = Ret contents ->
     ImageProcessor.Image_open contents = Raise e ->
     ImageProcessor.remove_background file = ImageProcessor.HTTPException 500 (str_exn e)) /\
  (forall contents input_image e,
     ImageProcessor.read file = Ret contents ->
     ImageProcessor.Image_open contents = Ret input_image ->
     ImageProcessor.remove input_image = Raise e ->
     ImageProcessor.remove_background file = ImageProcessor.HTTPException 500 (str_exn e)) /\
  (forall contents input_image output_image e,
     ImageProcessor.read file = Ret contents ->
     ImageProcessor.Image_open contents = Ret input_image ->
     ImageProcessor.remove input_image = Ret output_image ->
     ImageProcessor.save_png output_image = Raise e ->
     ImageProcessor.remove_background file = ImageProcessor.HTTPException 500 (str_exn e)) /\
  (forall contents input_image output_image output,
     ImageProcessor.read file = Ret contents ->
     ImageProcessor.Image_open contents = Ret input_image ->
     ImageProcessor.remove input_image = Ret output_image ->
     ImageProcessor.save_png output_image = Ret output ->
     exists response,
       ImageProcessor.remove_background file = ImageProcessor.Returns response /\
       ImageProcessor.content response = output /\
       ImageProcessor.media_type response = "image/png" /\
       ImageProcessor.status_code response = 200 /\
       ImageProcessor.headers response !! "Content-Disposition"
       = Some "attachment; filename=output.png").
Proof.
  intros Hct Hs.
  assert (Hok : ImageProcessor.not_an_image file = false).
  { unfold ImageProcessor.not_an_image. rewrite Hct, Hs.
    destruct ct; [discriminate Hs | reflexivity]. }
  unfold ImageProcessor.remove_background, ImageProcessor.remove_background_try.
  rewrite Hok. repeat apply conj.
  - intros e ->. reflexivity.
  - intros contents e -> Ho. cbn [bind]. rewrite Ho. reflexivity.
  - intros contents i e -> Ho Hr. cbn [bind]. rewrite Ho. cbn [bind]. rewrite Hr. reflexivity.
  - intros contents i o e -> Ho Hr Hsave. cbn [bind]. rewrite Ho. cbn [bind]. rewrite Hr.
    cbn [bind]. rewrite Hsave. reflexivity.
  - intros contents i o out -> Ho Hr Hsave. cbn [bind]. rewrite Ho. cbn [bind]. rewrite Hr.
    cbn [bind]. rewrite Hsave. cbn [bind]. eexists. split; [reflexivity|]. repeat split.
Qed.

(** An upload that opens and is cut out, and one on which rembg fails. *)
Lemma remove_background_pipeline_witness :
  (exists response,
     @ImageProcessor.remove_background ImageProcessor.T
       (ImageProcessor.mkUploadFile (Some "image/png") (Ret (Toy.bytes_of "PNG")))
     = ImageProcessor.Returns response /\
     ImageProcessor.content response = Toy.bytes_of "PNG-cut") /\
  @ImageProcessor.remove_background ImageProcessor.T
    (ImageProcessor.mkUploadFile (Some "image/png") (Ret (Toy.bytes_of "PNG!")))
  = ImageProcessor.HTTPException 500 "session failed".
Proof.
  split.
  - destruct (proj2 (proj2 (proj2 (proj2
      (@remove_background_pipeline ImageProcessor.T
         (ImageProcessor.mkUploadFile (Some "image/png") (Ret (Toy.bytes_of "PNG")))
         "image/png" eq_refl eq_refl))))
      (Toy.bytes_of "PNG") "PNG" "PNG-cut" (Toy.bytes_of "PNG-cut")
      eq_refl eq_refl eq_refl eq_refl) as (response & Hr & Hc & _).
    exists response. split; assumption.
  - apply (proj1 (proj2 (proj2
      (@remove_background_pipeline ImageProcessor.T
         (ImageProcessor.mkUploadFile (Some "image/png") (Ret (Toy.bytes_of "PNG!")))
         "image/png" eq_refl eq_refl)))
      (Toy.bytes_of "PNG!") "PNG!" (Exn "RuntimeError" "session failed")); reflexivity.
Defined.

(** ** The text of a response *)

Lemma block_entries_texts (bs : list OCRBlock) : forall lines,
  map block_text bs = map PyStr lines ->
  Forall2 (fun entry line =>
             exists m : gmap string pyval,
               entry = PyDict m /\ m !! "text" = Some (PyStr line))
          (map block_to_dict bs) lines.
Proof.
  induction bs as [|b bs IH]; intros [|line lines]; simpl; try discriminate.
  - constructor.
  - intros [= Hb Hbs]. constructor; [|auto].
    eexists. split; [reflexivity|]. rewrite <- Hb. reflexivity.
Qed.

Lemma answer_text_joins_entries `{W : Externals} (d : gmap string pyval) :
  answer d -> text_joins_entries d.
Proof.
  intros [(msg & ->)|(img & r & Hr & ->)].
  - exists [], []. repeat split. constructor.
  - destruct (process_text_is_joined img r Hr) as (lines & Hlines & Htext).
    exists (map block_to_dict (blocks r)), lines.
    rewrite to_dict_blocks, to_dict_text, Htext.
    split; [reflexivity|]. split; [|reflexivity]. apply block_entries_texts. exact Hlines.
Qed.

(** X12. In every response of either handler, the text is the newline
    join of the ["text"] entries of the blocks, in the order of the list
    (the empty text for an empty list): a caller can rebuild the text from
    the blocks. *)
Theorem response_text_joins_entries `{W : Externals} :
  (forall image_base64 d, ocr_from_base64 image_base64 = Ret d -> text_joins_entries d) /\
  (forall file_path d, ocr_from_path file_path = Ret d -> text_joins_entries d).
Proof.
  split.
  - intros s d Hd. destruct (ocr_from_base64_answer s) as (d' & Hd' & Ha).
    rewrite Hd in Hd'. injection Hd' as <-. apply answer_text_joins_entries. exact Ha.
  - intros p d Hd. destruct (ocr_from_path_answer p) as (d' & Hd' & Ha).
    rewrite Hd in Hd'. injection Hd' as <-. apply answer_text_joins_entries. exact Ha.
Qed.

(** The response to the picture of two lines. *)
Lemma response_text_joins_entries_witness :
  exists d, @ocr_from_base64 Toy.W "aGVsbG8=" = Ret d /\ text_joins_entries d.
Proof.
  destruct (@ocr_from_base64_answer Toy.W "aGVsbG8=") as (d & Hd & _).
  exists d. split; [exact Hd|].
  apply (proj1 (@response_text_joins_entries Toy.W) "aGVsbG8=" d Hd).
Defined.
